(** * Rep-judgment engine of the bench-press analyzer

    A shallow embedding of [WorkoutAnalyzer.analyze_video]
    (ml-backend/app/logic.py) and the properties of its per-frame
    decision logic.

    Numbers.  Pixel coordinates, distances and ratios are Python floats in
    the source; they are modelled as exact rationals [Q], so rounding,
    infinities and NaN are outside the model.  Integers ([fps], frame
    counts, box corners after [int(...)]) are [Z].

    Effects.  The rep tracker lives in attributes of the analyzer object
    and survives both the end of a call and an exception; the other
    analysis variables are locals of one call.  The embedding threads the
    attributes through a small state monad whose results are either a
    raised exception or a value; the locals are an explicit record.

    External collaborators (the object detector, the pose estimator, the
    video reader and writer, the transcoder and the JSON dump) appear only
    through the values the analysis reads from them. *)

From Stdlib Require Import ZArith QArith Qabs List String Bool Lia.
Import ListNotations.
Open Scope Q_scope.

(* ------------------------------------------------------------------ *)
(** ** Python values used by the analysis *)

Module Py.

Inductive Exn : Type :=
| FileNotFoundError
| ValueError
| RuntimeError
| TypeError
| ZeroDivisionError.

(** [a < b] and [a > b] on numbers. *)
Definition lt (a b : Q) : bool := negb (Qle_bool b a).
Definition gt (a b : Q) : bool := lt b a.

(** Truth value of a number (zero is false) and of an optional number
    ([None] is false as well). *)
Definition truthy (x : Q) : bool := negb (Qeq_bool x 0).

Definition truthy_opt (x : option Q) : bool :=
  match x with
  | Some v => truthy v
  | None => false
  end.

(** [bool(t)] of an optional tuple: a non-empty tuple is always true. *)
Definition present {A : Type} (x : option A) : bool :=
  match x with
  | Some _ => true
  | None => false
  end.

(** [a / b]: true division, raising on a zero divisor. *)
Definition truediv (a b : Q) : Exn + Q :=
  if Qeq_bool b 0 then inl ZeroDivisionError else inr (a / b).

(** [int(x)] of a float: truncation toward zero. *)
Definition int (x : Q) : Z := Z.quot (Qnum x) (Zpos (Qden x)).

(** [sum(xs)], which starts from the integer 0. *)
Definition sum (xs : list Q) : Q := fold_left Qplus xs 0.

(** [len(xs)] as a number. *)
Definition len {A : Type} (xs : list A) : Q := inject_Z (Z.of_nat (List.length xs)).

(** [collections.deque(maxlen=n).append(x)]: the sample is added on the
    right and, when the bound is exceeded, one is dropped on the left. *)
Definition deque_append (maxlen : nat) (d : list Q) (x : Q) : list Q :=
  let d' := d ++ [x] in
  if (maxlen <? List.length d')%nat then tl d' else d'.

End Py.

(* ------------------------------------------------------------------ *)
(** ** Configuration constants *)

Definition HIP_LIFT_RATIO : Q := 0.5.
Definition SHALLOW_REP_RATIO : Q := 0.05.
Definition SMOOTHING_WINDOW_SIZE : nat := 5.

Definition STATUS_OK : string := "OK".
Definition STATUS_FAIL_HIP : string := "FAIL: HIP LIFT".
Definition STATUS_FAIL_SHALLOW : string := "FAIL: ELBOW DEPTH".
Definition STATUS_GOOD_REP : string := "GOOD REP".
Definition STATUS_EGO_LIFT : string := "EGO LIFT".

(** [a != b] on status strings. *)
Definition status_ne (a b : string) : bool := negb (String.eqb a b).

(* ------------------------------------------------------------------ *)
(** ** Data *)

(** The attributes of a [WorkoutAnalyzer] that the analysis reads and
    writes ("State variables for rep judgment"). *)
Record Analyzer : Type := mkAnalyzer {
  is_in_rep : bool;
  min_bar_shoulder_dist : Q;
  min_elbow_y_at_bottom : Q
}.

(** [WorkoutAnalyzer.__init__]. *)
Definition __init__ : Analyzer :=
  {| is_in_rep := false;
     min_bar_shoulder_dist := 1000;
     min_elbow_y_at_bottom := 2000 |}.

(** One detector box: class id, confidence and the corners [x1 y1 x2 y2]. *)
Record Box : Type := mkBox {
  cls : Z;
  conf : Q;
  xyxy : Q * Q * Q * Q
}.

(** A box after [int(...)] of its four corners; index 1 is the top edge,
    index 3 the bottom edge. *)
Definition IBox : Type := (Z * Z * Z * Z)%type.

Definition box_top (b : IBox) : Q := let '(_, y1, _, _) := b in inject_Z y1.
Definition box_bottom (b : IBox) : Q := let '(_, _, _, y2) := b in inject_Z y2.

(** The normalised vertical positions of the six landmarks that are read. *)
Record Landmarks : Type := mkLandmarks {
  left_hip : Q;
  right_hip : Q;
  left_elbow : Q;
  right_elbow : Q;
  left_shoulder : Q;
  right_shoulder : Q
}.

(** What the two collaborators return for one frame: the detector's
    results (each a list of boxes) and the pose landmarks, if any. *)
Record Frame : Type := mkFrame {
  results : list (list Box);
  pose_landmarks : option Landmarks
}.

(** One entry of [time_series_data]. *)
Record Row : Type := mkRow {
  frame : Z;
  timestamp : Q;
  hip_y : option Q;
  elbow_y : option Q;
  shoulder_y : option Q;
  bench_detected : bool;
  bar_detected : bool
}.

(** The analysis variables local to one call of [analyze_video]. *)
Record Locals : Type := mkLocals {
  baseline_hip_bench_dist : option Q;
  dynamic_hip_threshold : option Q;
  hip_lift_status : string;
  shallow_rep_status : string;
  time_series_data : list Row;
  elbow_y_buffer : list Q;
  frame_idx : Z
}.

(** The "Analysis state" block before the loop. *)
Definition init_locals : Locals :=
  {| baseline_hip_bench_dist := None;
     dynamic_hip_threshold := None;
     hip_lift_status := STATUS_OK;
     shallow_rep_status := STATUS_OK;
     time_series_data := [];
     elbow_y_buffer := [];
     frame_idx := 0 |}.

(** The dictionary returned by [analyze_video]. *)
Record Result : Type := mkResult {
  r_overall_status : string;
  r_hip_lift_status : string;
  r_shallow_rep_status : string;
  r_hip_lift_detected : bool;
  r_shallow_rep_detected : bool;
  r_time_series_data : list Row;
  r_total_frames : Z;
  r_fps : Z;
  r_video_duration : Q
}.

(** The opened capture: its state, its properties and the frames that
    [cap.read()] delivers until it reports the end. *)
Record Capture : Type := mkCapture {
  isOpened : bool;
  CAP_PROP_FPS : Q;
  CAP_PROP_FRAME_WIDTH : Q;
  CAP_PROP_FRAME_HEIGHT : Q;
  CAP_PROP_FRAME_COUNT : Q;
  frames : list Frame
}.

(** What one call finds outside the analyzer. *)
Record World : Type := mkWorld {
  input_video_exists : bool;
  model_exists : bool;
  cap : Capture;
  writer_isOpened : bool
}.

(* ------------------------------------------------------------------ *)
(** ** The monad of a method call: analyzer attributes and exceptions *)

Definition M (A : Type) : Type := Analyzer -> Analyzer * (Py.Exn + A).

Definition ret {A : Type} (a : A) : M A := fun self => (self, inr a).

Definition bind {A B : Type} (m : M A) (k : A -> M B) : M B :=
  fun self =>
    match m self with
    | (self', inl e) => (self', inl e)
    | (self', inr a) => k a self'
    end.

Definition raise {A : Type} (e : Py.Exn) : M A := fun self => (self, inl e).

Definition lift {A : Type} (r : Py.Exn + A) : M A := fun self => (self, r).

Definition get_self : M Analyzer := fun self => (self, inr self).

Definition set_self (self' : Analyzer) : M unit := fun _ => (self', inr tt).

Declare Scope py_scope.
Delimit Scope py_scope with py.
Notation "x <- m ;; k" := (bind m (fun x => k))
  (at level 61, m at next level, right associativity) : py_scope.
Notation "' pat <- m ;; k" := (bind m (fun x => match x with pat => k end))
  (at level 61, pat pattern, m at next level, right associativity) : py_scope.
Notation "m ;;; k" := (bind m (fun _ => k))
  (at level 61, right associativity) : py_scope.
Open Scope py_scope.

(* ------------------------------------------------------------------ *)
(** ** The body of the frame loop *)

(** "YOLO Detection (Bench & Bar)": class 0 with confidence above 0.5 is
    the bar, class 1 the bench; a later box replaces an earlier one. *)
Definition int_box (b : Box) : IBox :=
  let '(x1, y1, x2, y2) := xyxy b in (Py.int x1, Py.int y1, Py.int x2, Py.int y2).

Definition detect_box (acc : option IBox * option IBox) (b : Box)
  : option IBox * option IBox :=
  let '(bench_box, bar_box) := acc in
  if (cls b =? 0)%Z && Py.gt (conf b) 0.5 then (bench_box, Some (int_box b))
  else if (cls b =? 1)%Z && Py.gt (conf b) 0.5 then (Some (int_box b), bar_box)
  else (bench_box, bar_box).

(** Returns [(bench_box, bar_box)]. *)
Definition detect (rs : list (list Box)) : option IBox * option IBox :=
  fold_left (fun acc r => fold_left detect_box r acc) rs (None, None).

(** "Calculate average positions": [((l.y + r.y) / 2) * height]. *)
Definition average_y (l r : Q) (height : Z) : Q := ((l + r) / 2) * inject_Z height.

(** "Apply smoothing to elbow": the new window and its mean. *)
Definition smooth (buf : list Q) (current_elbow_y : Q) : Py.Exn + (list Q * Q) :=
  let buf' := Py.deque_append SMOOTHING_WINDOW_SIZE buf current_elbow_y in
  match Py.truediv (Py.sum buf') (Py.len buf') with
  | inl e => inl e
  | inr m => inr (buf', m)
  end.

(** "Hip Lift Detection": works on the triple
    [(baseline_hip_bench_dist, dynamic_hip_threshold, hip_lift_status)]. *)
Definition HipState : Type := (option Q * option Q * string)%type.

Definition hip_lift_detection (bench_box : option IBox) (current_hip_y : Q)
    (hs : HipState) : Py.Exn + HipState :=
  let '(baseline, threshold, status) := hs in
  match bench_box with
  | Some bb =>
      let avg_bench_top_y := box_top bb in
      let current_hip_bench_dist := Qabs (current_hip_y - avg_bench_top_y) in
      (* Establish baseline *)
      let '(baseline, threshold) :=
        match baseline with
        | None => (Some current_hip_bench_dist,
                   Some (current_hip_bench_dist * HIP_LIFT_RATIO))
        | Some _ => (baseline, threshold)
        end in
      (* Check for hip lift *)
      match baseline, threshold with
      | Some b, Some t =>
          if Py.gt current_hip_bench_dist (b + t)
          then inr (baseline, threshold, STATUS_FAIL_HIP)
          else inr (baseline, threshold, status)
      | _, _ => inl Py.TypeError
      end
  | None => inr hs
  end.

(** "Calculate torso length for dynamic threshold". *)
Definition avg_torso_length (current_shoulder_y current_hip_y : option Q) : Q :=
  match current_shoulder_y, current_hip_y with
  | Some s, Some h => if Py.truthy s && Py.truthy h then Qabs (s - h) else 100
  | _, _ => 100
  end.

Definition dynamic_shallow_threshold (current_shoulder_y current_hip_y : option Q) : Q :=
  avg_torso_length current_shoulder_y current_hip_y * SHALLOW_REP_RATIO.

(** The three tests of the rep state machine, as the source writes them
    (each one alone, before the [if]/[elif] chain orders them). *)
Definition rep_start_test (self : Analyzer) (dist : Q) : bool :=
  negb (is_in_rep self) && Py.lt dist (min_bar_shoulder_dist self - 30).

Definition rep_track_test (self : Analyzer) (dist : Q) : bool :=
  is_in_rep self && Py.lt dist (min_bar_shoulder_dist self).

Definition rep_end_test (self : Analyzer) (dist : Q) : bool :=
  is_in_rep self && Py.gt dist (min_bar_shoulder_dist self + 30).

(** The judgment inside "REP END". *)
Definition judge (bench_box : option IBox) (threshold : Q) (self : Analyzer)
    (shallow_status : string) : string :=
  match bench_box with
  | Some bb =>
      if Py.gt (min_elbow_y_at_bottom self) (box_top bb + threshold)
      then STATUS_FAIL_SHALLOW
      else shallow_status
  | None => shallow_status
  end.

(** "Shallow Rep Detection (State Machine)": the [if]/[elif]/[elif] chain,
    run when a bar box is there.  Returns the new [shallow_rep_status]. *)
Definition rep_state_machine (bench_box : option IBox)
    (current_bar_shoulder_dist avg_elbow_line_y threshold : Q)
    (shallow_status : string) : M string :=
  self <- get_self ;;
  if rep_start_test self current_bar_shoulder_dist then
    set_self {| is_in_rep := true;
                min_bar_shoulder_dist := current_bar_shoulder_dist;
                min_elbow_y_at_bottom := avg_elbow_line_y |} ;;;
    ret shallow_status
  else if rep_track_test self current_bar_shoulder_dist then
    set_self {| is_in_rep := is_in_rep self;
                min_bar_shoulder_dist := current_bar_shoulder_dist;
                min_elbow_y_at_bottom := avg_elbow_line_y |} ;;;
    ret shallow_status
  else if rep_end_test self current_bar_shoulder_dist then
    let shallow_status' := judge bench_box threshold self shallow_status in
    set_self {| is_in_rep := false;
                min_bar_shoulder_dist := 1000;
                min_elbow_y_at_bottom := 2000 |} ;;;
    ret shallow_status'
  else ret shallow_status.

Definition shallow_rep_detection (bench_box bar_box : option IBox)
    (current_hip_y current_shoulder_y smoothed_elbow_y : Q)
    (shallow_status : string) : M string :=
  match bar_box with
  | Some bar =>
      let avg_bar_bottom_y := box_bottom bar in
      let current_bar_shoulder_dist := Qabs (avg_bar_bottom_y - current_shoulder_y) in
      rep_state_machine bench_box current_bar_shoulder_dist smoothed_elbow_y
        (dynamic_shallow_threshold (Some current_shoulder_y) (Some current_hip_y))
        shallow_status
  | None => ret shallow_status
  end.

(** The values a frame leaves in [current_hip_y], [current_elbow_y] and
    [current_shoulder_y]. *)
Definition Coords : Type := (option Q * option Q * option Q)%type.

(** The block under [if pose_results.pose_landmarks:]. *)
Definition pose_block (height : Z) (bench_box bar_box : option IBox)
    (lm : Landmarks) (st : Locals) : M (Coords * Locals) :=
  let current_hip_y := average_y (left_hip lm) (right_hip lm) height in
  let current_elbow_y := average_y (left_elbow lm) (right_elbow lm) height in
  let current_shoulder_y := average_y (left_shoulder lm) (right_shoulder lm) height in
  '(buf, smoothed_elbow_y) <- lift (smooth (elbow_y_buffer st) current_elbow_y) ;;
  '(baseline, threshold, hip_status) <-
     lift (hip_lift_detection bench_box current_hip_y
             (baseline_hip_bench_dist st, dynamic_hip_threshold st, hip_lift_status st)) ;;
  shallow_status <-
     shallow_rep_detection bench_box bar_box current_hip_y current_shoulder_y
       smoothed_elbow_y (shallow_rep_status st) ;;
  ret ((Some current_hip_y, Some current_elbow_y, Some current_shoulder_y),
       {| baseline_hip_bench_dist := baseline;
          dynamic_hip_threshold := threshold;
          hip_lift_status := hip_status;
          shallow_rep_status := shallow_status;
          time_series_data := time_series_data st;
          elbow_y_buffer := buf;
          frame_idx := frame_idx st |}).

(** [float(x) if x else None]. *)
Definition float_or_none (x : option Q) : option Q :=
  if Py.truthy_opt x then x else None.

(** "Store time series data". *)
Definition store_row (fps : Z) (bench_box bar_box : option IBox) (c : Coords)
    (st : Locals) : Py.Exn + Locals :=
  let '(current_hip_y, current_elbow_y, current_shoulder_y) := c in
  match Py.truediv (inject_Z (frame_idx st)) (inject_Z fps) with
  | inl e => inl e
  | inr ts =>
      inr {| baseline_hip_bench_dist := baseline_hip_bench_dist st;
             dynamic_hip_threshold := dynamic_hip_threshold st;
             hip_lift_status := hip_lift_status st;
             shallow_rep_status := shallow_rep_status st;
             time_series_data :=
               time_series_data st ++
               [ {| frame := frame_idx st;
                    timestamp := ts;
                    hip_y := float_or_none current_hip_y;
                    elbow_y := float_or_none current_elbow_y;
                    shoulder_y := float_or_none current_shoulder_y;
                    bench_detected := Py.present bench_box;
                    bar_detected := Py.present bar_box |} ];
             elbow_y_buffer := elbow_y_buffer st;
             frame_idx := frame_idx st |}
  end.

Definition next_frame (st : Locals) : Locals :=
  {| baseline_hip_bench_dist := baseline_hip_bench_dist st;
     dynamic_hip_threshold := dynamic_hip_threshold st;
     hip_lift_status := hip_lift_status st;
     shallow_rep_status := shallow_rep_status st;
     time_series_data := time_series_data st;
     elbow_y_buffer := elbow_y_buffer st;
     frame_idx := (frame_idx st + 1)%Z |}.

(** One iteration of the [while] loop, for a frame that was read. *)
Definition frame_body (fps height : Z) (f : Frame) (st : Locals) : M Locals :=
  let st := next_frame st in
  let '(bench_box, bar_box) := detect (results f) in
  '(c, st) <-
     match pose_landmarks f with
     | Some lm => pose_block height bench_box bar_box lm st
     | None => ret ((None, None, None), st)
     end ;;
  lift (store_row fps bench_box bar_box c st).

(** The loop over the frames of the video. *)
Fixpoint frame_loop (fps height : Z) (fs : list Frame) (st : Locals) : M Locals :=
  match fs with
  | [] => ret st
  | f :: fs' => st' <- frame_body fps height f st ;; frame_loop fps height fs' st'
  end.

(** "Determine Overall Status". *)
Definition overall_status (hip_status shallow_status : string) : string :=
  if status_ne hip_status STATUS_OK || status_ne shallow_status STATUS_OK
  then STATUS_EGO_LIFT
  else STATUS_GOOD_REP.

(** [total_frames / fps if fps > 0 else 0]. *)
Definition video_duration (total_frames fps : Z) : Py.Exn + Q :=
  if (fps >? 0)%Z then Py.truediv (inject_Z total_frames) (inject_Z fps) else inr 0.

Definition make_results (total_frames fps : Z) (st : Locals) : Py.Exn + Result :=
  match video_duration total_frames fps with
  | inl e => inl e
  | inr d =>
      inr {| r_overall_status := overall_status (hip_lift_status st) (shallow_rep_status st);
             r_hip_lift_status := hip_lift_status st;
             r_shallow_rep_status := shallow_rep_status st;
             r_hip_lift_detected := status_ne (hip_lift_status st) STATUS_OK;
             r_shallow_rep_detected := status_ne (shallow_rep_status st) STATUS_OK;
             r_time_series_data := time_series_data st;
             r_total_frames := total_frames;
             r_fps := fps;
             r_video_duration := d |}
  end.

(** [WorkoutAnalyzer._load_models]. *)
Definition _load_models (w : World) : M unit :=
  if negb (model_exists w) then raise Py.FileNotFoundError else ret tt.

(** [WorkoutAnalyzer.analyze_video]. *)
Definition analyze_video (w : World) : M Result :=
  if negb (input_video_exists w) then raise Py.FileNotFoundError else
  _load_models w ;;;
  if negb (isOpened (cap w)) then raise Py.ValueError else
  let fps := Py.int (CAP_PROP_FPS (cap w)) in
  let height := Py.int (CAP_PROP_FRAME_HEIGHT (cap w)) in
  let total_frames := Py.int (CAP_PROP_FRAME_COUNT (cap w)) in
  if negb (writer_isOpened w) then raise Py.RuntimeError else
  st <- frame_loop fps height (frames (cap w)) init_locals ;;
  lift (make_results total_frames fps st).

(* ------------------------------------------------------------------ *)
(** ** Notions used in the statements *)

(** The last [n] elements of a list. *)
Definition lastn {A : Type} (n : nat) (l : list A) : list A :=
  skipn (List.length l - n) l.

(** The two baseline variables are assigned together. *)
Definition baseline_paired (st : Locals) : Prop :=
  baseline_hip_bench_dist st <> None -> dynamic_hip_threshold st <> None.

(** The attributes after the start rule and after the extend-minimum rule. *)
Definition rep_started (d e : Q) : Analyzer :=
  {| is_in_rep := true; min_bar_shoulder_dist := d; min_elbow_y_at_bottom := e |}.

Definition rep_tracked (self : Analyzer) (d e : Q) : Analyzer :=
  {| is_in_rep := is_in_rep self; min_bar_shoulder_dist := d;
     min_elbow_y_at_bottom := e |}.

(** The boxes detected on a frame. *)
Definition bench_of (f : Frame) : option IBox := fst (detect (results f)).
Definition bar_of (f : Frame) : option IBox := snd (detect (results f)).

(** The three coordinates computed from the landmarks of a pose. *)
Definition hip_of (height : Z) (lm : Landmarks) : Q :=
  average_y (left_hip lm) (right_hip lm) height.
Definition elbow_of (height : Z) (lm : Landmarks) : Q :=
  average_y (left_elbow lm) (right_elbow lm) height.
Definition shoulder_of (height : Z) (lm : Landmarks) : Q :=
  average_y (left_shoulder lm) (right_shoulder lm) height.

(** The window after the elbow sample of a frame with a pose. *)
Definition window_of (height : Z) (lm : Landmarks) (st : Locals) : list Q :=
  Py.deque_append SMOOTHING_WINDOW_SIZE (elbow_y_buffer st) (elbow_of height lm).

(** The smoothed elbow height of that frame. *)
Definition smoothed_of (height : Z) (lm : Landmarks) (st : Locals) : Q :=
  Py.sum (window_of height lm st) / Py.len (window_of height lm st).

(** The recorded coordinates of a frame. *)
Definition coords_of (height : Z) (f : Frame) : Coords :=
  match pose_landmarks f with
  | Some lm => (Some (hip_of height lm), Some (elbow_of height lm),
                Some (shoulder_of height lm))
  | None => (None, None, None)
  end.

(** The entry a frame appends to the time series. *)
Definition row_of (fps height : Z) (f : Frame) (idx : Z) : Row :=
  let '(h, e, s) := coords_of height f in
  {| frame := idx;
     timestamp := inject_Z idx / inject_Z fps;
     hip_y := float_or_none h;
     elbow_y := float_or_none e;
     shoulder_y := float_or_none s;
     bench_detected := Py.present (bench_of f);
     bar_detected := Py.present (bar_of f) |}.

(** The locals after the pose block. *)
Definition after_pose (st : Locals) (b t : option Q) (hs ss : string)
    (w : list Q) : Locals :=
  {| baseline_hip_bench_dist := b;
     dynamic_hip_threshold := t;
     hip_lift_status := hs;
     shallow_rep_status := ss;
     time_series_data := time_series_data st;
     elbow_y_buffer := w;
     frame_idx := (frame_idx st + 1)%Z |}.

(** The values read from the capture. *)
Definition fps_of (w : World) : Z := Py.int (CAP_PROP_FPS (cap w)).
Definition height_of (w : World) : Z := Py.int (CAP_PROP_FRAME_HEIGHT (cap w)).
Definition total_frames_of (w : World) : Z := Py.int (CAP_PROP_FRAME_COUNT (cap w)).

(** The checks before the loop all pass. *)
Definition ready (w : World) : Prop :=
  input_video_exists w = true /\ model_exists w = true /\
  isOpened (cap w) = true /\ writer_isOpened w = true.

(** The analyzer and the locals after the first frames [fs] of a call. *)
Definition run_frames (w : World) (fs : list Frame) : M Locals :=
  frame_loop (fps_of w) (height_of w) fs init_locals.

(** A frame lacks the pose or the bench box. *)
Definition uncalibrating (f : Frame) : Prop :=
  pose_landmarks f = None \/ bench_of f = None.

(** The elbow samples of a list of frames: one per frame with a pose. *)
Definition elbow_samples (height : Z) (fs : list Frame) : list Q :=
  flat_map (fun f => match pose_landmarks f with
                     | Some lm => [elbow_of height lm]
                     | None => []
                     end) fs.

(** The arithmetic mean of a list of numbers. *)
Definition mean (xs : list Q) : Q :=
  fold_right Qplus 0 xs / inject_Z (Z.of_nat (List.length xs)).

(** The torso length as the specification words it: the distance between
    shoulders and hips when both are present, else 100. *)
Definition torso_length_spec (shoulder hip : option Q) : Q :=
  match shoulder, hip with
  | Some s, Some h => Qabs (s - h)
  | _, _ => 100
  end.

(* ------------------------------------------------------------------ *)
(** ** Sample inputs *)

Module Sample.

(** A confident bar box with the given bottom edge and a confident bench
    box with the given top edge. *)
Definition bar (bottom : Q) : Box := mkBox 0 0.9 (100, 0, 500, bottom).
Definition bench (top : Q) : Box := mkBox 1 0.9 (50, top, 600, 900).

(** Landmarks with both sides at the same height. *)
Definition pose (hip elbow shoulder : Q) : Landmarks :=
  mkLandmarks hip hip elbow elbow shoulder shoulder.

(** A frame with one detector result. *)
Definition shot (boxes : list Box) (p : option Landmarks) : Frame :=
  mkFrame [boxes] p.

(** A readable video of height 1000 whose frame count matches. *)
Definition world (fps : Q) (fs : list Frame) : World :=
  mkWorld true true
    (mkCapture true fps 640 1000 (inject_Z (Z.of_nat (List.length fs))) fs) true.

(** The locals of a monadic result, [init_locals] when it raised. *)
Definition locals_of (r : Analyzer * (Py.Exn + Locals)) : Locals :=
  match snd r with
  | inr st => st
  | inl _ => init_locals
  end.

(** Hips 100 above the bench top at 600, then 200 above, then back. *)
Definition hip_calm : Frame := shot [bench 600] (Some (pose 0.5 0.7 0.3)).
Definition hip_lifted : Frame := shot [bench 600] (Some (pose 0.4 0.7 0.3)).

(** Poses with nothing detected (hips at 500, then at 100), and a frame
    with a bench but no pose. *)
Definition bare_calm : Frame := shot [] (Some (pose 0.5 0.7 0.3)).
Definition bare_lifted : Frame := shot [] (Some (pose 0.1 0.7 0.3)).
Definition blank : Frame := shot [bench 600] None.

(** A pose with the elbows at the given height and nothing detected. *)
Definition elbows (e : Q) : Frame := shot [] (Some (pose 0.5 e 0.3)).

(** The shoulders on the top edge of the image (height 0), the hips at 50
    and the elbows at 604, with the bar 100 and then 200 below the
    shoulders and the bench top at 600. *)
Definition top_edge : Landmarks := pose 0.05 0.604 0.
Definition top_edge_down : Frame := shot [bar 100; bench 600] (Some top_edge).
Definition top_edge_up : Frame := shot [bar 200; bench 600] (Some top_edge).

(** The result of a call, an empty one when it raised. *)
Definition result_of (r : Analyzer * (Py.Exn + Result)) : Result :=
  match snd r with
  | inr res => res
  | inl _ => mkResult "" "" "" false false [] 0 0 0
  end.

(** The bar 200 and then 100 below the shoulders at 300. *)
Definition bar_high : Frame := shot [bar 500; bench 600] (Some (pose 0.5 0.7 0.3)).
Definition bar_low : Frame := shot [bar 400; bench 600] (Some (pose 0.5 0.7 0.3)).

End Sample.

(* ------------------------------------------------------------------ *)
(** ** Output paths *)

Module PyStr.

(** [s.replace(old, new)] for a non-empty [old] (the source only uses
    [".mp4"]): the text is scanned from the left; where [old] starts,
    [new] is written and the scan goes on behind the occurrence.  [skip]
    counts the characters of an occurrence still to be passed over. *)
Fixpoint replace_from (old new : string) (skip : nat) (s : string) : string :=
  match s with
  | EmptyString => EmptyString
  | String c s' =>
      match skip with
      | S k => replace_from old new k s'
      | O =>
          if String.prefix old s
          then (new ++ replace_from old new (String.length old - 1) s')%string
          else String c (replace_from old new 0 s')
      end
  end.

Definition replace (old new s : string) : string := replace_from old new 0 s.

(** Truth value of an optional string: [None] and the empty string are
    false. *)
Definition truthy (s : option string) : bool :=
  match s with
  | Some EmptyString => false
  | Some _ => true
  | None => false
  end.

End PyStr.

(** [output_video_path.replace('.mp4', '_temp.mp4')] and
    [output_video_path.replace('.mp4', '.json')] in [analyze_video]. *)
Definition temp_output (output_video_path : string) : string :=
  PyStr.replace ".mp4" "_temp.mp4" output_video_path.

Definition json_output_path (output_video_path : string) : string :=
  PyStr.replace ".mp4" ".json" output_video_path.

(** [old] occurs in [s]. *)
Definition occurs (old s : string) : Prop :=
  exists pre post, s = (pre ++ old ++ post)%string.

(* ------------------------------------------------------------------ *)
(** ** The patched model loader *)

Section TorchLoad.

(** Python values, the value [False], and [_original_torch_load] with its
    positional and keyword arguments (a dictionary in insertion order). *)
Variable Value : Type.
Variable PyFalse : Value.
Variable Loaded : Type.
Variable _original_torch_load : list Value -> list (string * Value) -> Loaded.

(** [key in kwargs] and [kwargs.get(key)]. *)
Definition kwargs_has (key : string) (kwargs : list (string * Value)) : bool :=
  existsb (fun kv => String.eqb (fst kv) key) kwargs.

Definition kwargs_get (key : string) (kwargs : list (string * Value)) : option Value :=
  option_map snd (find (fun kv => String.eqb (fst kv) key) kwargs).

(** [_patched_torch_load]. *)
Definition _patched_torch_load (args : list Value) (kwargs : list (string * Value))
  : Loaded :=
  let kwargs :=
    if negb (kwargs_has "weights_only" kwargs)
    then kwargs ++ [("weights_only"%string, PyFalse)]
    else kwargs in
  _original_torch_load args kwargs.

End TorchLoad.

(* ------------------------------------------------------------------ *)
(** ** The API layer (ml-backend/app/main.py) *)

Module Main.

(** The files that exist, by path; [os.path.exists] and a successful
    [os.remove]. *)
Definition Files : Type := list string.

Definition path_exists (fs : Files) (p : string) : bool :=
  existsb (String.eqb p) fs.

Definition os_remove (fs : Files) (p : string) : Files :=
  filter (fun q => negb (String.eqb p q)) fs.

Record AnalyzeRequest : Type := mkAnalyzeRequest {
  input_video_path : string;
  output_video_path : string
}.

Inductive HTTPException : Type :=
| mkHTTPException (status_code : Z) (detail : string).

(** A queued call of [process_video_background]: its [input_path] and
    [output_path]. *)
Definition Task : Type := (string * string)%type.

(** The body returned with status 202. *)
Record Started : Type := mkStarted {
  status : string;
  message : string
}.


(** The [/analyze] endpoint. *)
Definition analyze_video (fs : Files) (MODEL_PATH : string)
    (request : AnalyzeRequest) (background_tasks : list Task)
  : list Task * (HTTPException + Started) :=
  if negb (path_exists fs (input_video_path request)) then
    (background_tasks,
     inl (mkHTTPException 404
            ("Input video file not found: " ++ input_video_path request)))
  else if negb (path_exists fs MODEL_PATH) then
    (background_tasks,
     inl (mkHTTPException 500
            ("YOLO model not found at " ++ MODEL_PATH
             ++ ". Please ensure the model is available.")))
  else
    (background_tasks ++ [(input_video_path request, output_video_path request)],
     inr {| status := "processing_started";
            message := "Video analysis started. Poll the video status to check progress." |}).

(** The variables of [delete_video_files] together with the files. *)
Record Deletion : Type := mkDeletion {
  files : Files;
  deleted : list string;
  failed : list string
}.

(** [try: os.remove(path); deleted_files.append(path)
     except Exception as e: errors.append(...)].
    [remove_error path] is [str(e)] when removing [path] raises. *)
Definition try_remove (remove_error : string -> option string) (path : string)
    (st : Deletion) : Deletion :=
  match remove_error path with
  | None =>
      {| files := os_remove (files st) path;
         deleted := deleted st ++ [path];
         failed := failed st |}
  | Some e =>
      {| files := files st;
         deleted := deleted st;
         failed := failed st ++ [("Failed to delete " ++ path ++ ": " ++ e)%string] |}
  end.

(** The dictionary returned by [delete_video_files]. *)
Record Deleted : Type := mkDeleted {
  video_id : string;
  deleted_files : list string;
  errors : option (list string);
  success : bool
}.

(** "Delete original video". *)
Definition delete_original (remove_error : string -> option string)
    (original_path : option string) (st : Deletion) : Deletion :=
  match original_path with
  | Some p =>
      if PyStr.truthy original_path && path_exists (files st) p
      then try_remove remove_error p st
      else st
  | None => st
  end.

(** "Delete processed video" and, nested under the same test, "Also delete
    associated JSON analysis file". *)
Definition delete_processed (remove_error : string -> option string)
    (processed_path : option string) (st : Deletion) : Deletion :=
  match processed_path with
  | Some p =>
      if PyStr.truthy processed_path && path_exists (files st) p
      then
        let st := try_remove remove_error p st in
        let json_path := PyStr.replace ".mp4" ".json" p in
        if path_exists (files st) json_path
        then try_remove remove_error json_path st
        else st
      else st
  | None => st
  end.

(** The [DELETE /videos/{video_id}] endpoint. *)
Definition delete_video_files (remove_error : string -> option string)
    (vid : string) (original_path processed_path : option string) (fs : Files)
  : Files * Deleted :=
  let st := {| files := fs; deleted := []; failed := [] |} in
  let st := delete_original remove_error original_path st in
  let st := delete_processed remove_error processed_path st in
  (files st,
   {| video_id := vid;
      deleted_files := deleted st;
      errors := match failed st with [] => None | _ => Some (failed st) end;
      success := (List.length (failed st) =? 0)%nat |}).

End Main.

(* ------------------------------------------------------------------ *)
(** ** Further notions used in the statements *)

(** The deletion so far accounts for the files: a path exists now exactly
    when it existed at the start and is not listed as deleted, no path is
    listed twice, and every listed path did exist. *)
Definition tracks (fs0 : Main.Files) (st : Main.Deletion) : Prop :=
  (forall q, Main.path_exists (Main.files st) q =
             Main.path_exists fs0 q && negb (existsb (String.eqb q) (Main.deleted st))) /\
  NoDup (Main.deleted st) /\
  (forall q, In q (Main.deleted st) -> Main.path_exists fs0 q = true).

(** The JSON analysis file that goes with a processed video. *)
Definition json_path (processed_path : string) : string :=
  PyStr.replace ".mp4" ".json" processed_path.

(** What one of the two deletion steps guarantees, for the paths [cands]
    it may remove and the path [target] it is given. *)
Definition step_facts (fs0 : Main.Files) (target : option string)
    (cands : string -> Prop) (st st' : Main.Deletion) : Prop :=
  tracks fs0 st' /\
  (List.length (Main.failed st) <= List.length (Main.failed st'))%nat /\
  (forall q, Main.path_exists (Main.files st') q = true ->
             Main.path_exists (Main.files st) q = true) /\
  (forall q, In q (Main.deleted st') -> In q (Main.deleted st) \/ cands q) /\
  (forall q, In q (Main.deleted st) -> In q (Main.deleted st')) /\
  (List.length (Main.failed st') = List.length (Main.failed st) ->
   forall p, target = Some p -> PyStr.truthy target = true ->
             Main.path_exists (Main.files st') p = false).

(** A detector box counts for class [c]. *)
Definition qualifies (c : Z) (b : Box) : bool :=
  (cls b =? c)%Z && Py.gt (conf b) 0.5.

(** The records of the frames [fs], numbered from [idx]. *)
Fixpoint rows_from (fps height : Z) (idx : Z) (fs : list Frame) : list Row :=
  match fs with
  | [] => []
  | f :: fs' => row_of fps height f idx :: rows_from fps height (idx + 1) fs'
  end.

(** Each status holds one of its two values. *)
Definition statuses_valid (st : Locals) : Prop :=
  (hip_lift_status st = STATUS_OK \/ hip_lift_status st = STATUS_FAIL_HIP) /\
  (shallow_rep_status st = STATUS_OK \/
   shallow_rep_status st = STATUS_FAIL_SHALLOW).

(** The analyzer after a sequence of calls, one per world. *)
Definition calls (ws : list World) (self : Analyzer) : Analyzer :=
  fold_left (fun a w => fst (analyze_video w a)) ws self.

(** Outside a rep the tracker holds its sentinel values. *)
Definition idle_is_reset (self : Analyzer) : Prop :=
  is_in_rep self = false -> self = __init__.

(** The hip-to-bench distance of a frame with the given pose and bench. *)
Definition hip_bench_dist (height : Z) (lm : Landmarks) (bb : IBox) : Q :=
  Qabs (hip_of height lm - box_top bb).

(** A frame on which the hips are further than [limit] from the bench. *)
Definition hips_beyond (height : Z) (limit : Q) (f : Frame) : Prop :=
  exists lm bb,
    pose_landmarks f = Some lm /\ bench_of f = Some bb /\
    limit < hip_bench_dist height lm bb.

(* ------------------------------------------------------------------ *)
(** ** Comparisons, division and the smoothing window *)

Lemma lt_iff (a b : Q) : Py.lt a b = true <-> a < b.
Proof.
  unfold Py.lt. rewrite negb_true_iff. split; intro H.
  - apply Qnot_le_lt. intro Hle. apply Qle_bool_iff in Hle. congruence.
  - destruct (Qle_bool b a) eqn:E; [|reflexivity].
    apply Qle_bool_iff in E. exfalso. exact (Qlt_not_le _ _ H E).
Qed.

Lemma gt_iff (a b : Q) : Py.gt a b = true <-> b < a.
Proof. unfold Py.gt. apply lt_iff. Qed.

Lemma gt_false_iff (a b : Q) : Py.gt a b = false <-> a <= b.
Proof.
  unfold Py.gt, Py.lt. rewrite negb_false_iff. apply Qle_bool_iff.
Qed.

Lemma truthy_false_iff (x : Q) : Py.truthy x = false <-> x == 0.
Proof. unfold Py.truthy. rewrite negb_false_iff. apply Qeq_bool_iff. Qed.

Lemma truediv_ok (a b : Q) : ~ b == 0 -> Py.truediv a b = inr (a / b).
Proof.
  intro H. unfold Py.truediv.
  destruct (Qeq_bool b 0) eqn:E; [|reflexivity].
  apply Qeq_bool_iff in E. contradiction.
Qed.

Lemma inject_Z_zero_iff (z : Z) : inject_Z z == 0 <-> z = 0%Z.
Proof.
  unfold Qeq, inject_Z. simpl. lia.
Qed.

Lemma len_zero_iff {A : Type} (xs : list A) : Py.len xs == 0 <-> xs = [].
Proof.
  unfold Py.len. rewrite inject_Z_zero_iff.
  destruct xs; simpl; split; intro H; try reflexivity; try discriminate; lia.
Qed.

Lemma deque_append_nonempty (n : nat) (d : list Q) (x : Q) :
  (1 <= n)%nat -> Py.deque_append n d x <> [].
Proof.
  intros Hn. unfold Py.deque_append.
  destruct (Nat.ltb_spec n (List.length (d ++ [x]))) as [H|H].
  - destruct d as [|a [|b d]]; simpl in *; try discriminate; lia.
  - destruct d; discriminate.
Qed.

Lemma deque_append_length (n : nat) (d : list Q) (x : Q) :
  (List.length d <= n)%nat -> (List.length (Py.deque_append n d x) <= n)%nat.
Proof.
  intros H. unfold Py.deque_append.
  destruct (Nat.ltb_spec n (List.length (d ++ [x]))) as [H1|H1]; [|exact H1].
  rewrite length_app in H1. simpl in H1.
  destruct d; simpl in *; [lia|]. rewrite length_app. simpl. lia.
Qed.

Lemma deque_append_lastn (n : nat) (d : list Q) (x : Q) :
  (List.length d <= n)%nat -> Py.deque_append n d x = lastn n (d ++ [x]).
Proof.
  intros H. unfold Py.deque_append, lastn.
  destruct (Nat.ltb_spec n (List.length (d ++ [x]))) as [H1|H1].
  - rewrite length_app in *. simpl in *.
    replace (List.length d + 1 - n)%nat with 1%nat by lia.
    destruct d; reflexivity.
  - replace (List.length (d ++ [x]) - n)%nat with 0%nat by lia. reflexivity.
Qed.

Lemma lastn_all {A : Type} (n : nat) (l : list A) :
  (List.length l <= n)%nat -> lastn n l = l.
Proof.
  intros H. unfold lastn.
  replace (List.length l - n)%nat with 0%nat by lia. reflexivity.
Qed.

Lemma lastn_app_lastn {A : Type} (n : nat) (l m : list A) :
  lastn n (lastn n l ++ m) = lastn n (l ++ m).
Proof.
  destruct (Nat.le_gt_cases (List.length l) n) as [H|H].
  - now rewrite (lastn_all n l H).
  - unfold lastn. rewrite !length_app, length_skipn.
    remember (List.length l - n)%nat as k.
    replace (List.length l - k + List.length m - n)%nat
      with (List.length m) by lia.
    replace (List.length l + List.length m - n)%nat
      with (List.length m + k)%nat by lia.
    rewrite <- skipn_skipn, (skipn_app k l m).
    replace (k - List.length l)%nat with 0%nat by lia. reflexivity.
Qed.

(** Smoothing cannot raise: the window is never empty after the append. *)
Lemma smooth_ok (buf : list Q) (x : Q) :
  let w := Py.deque_append SMOOTHING_WINDOW_SIZE buf x in
  smooth buf x = inr (w, Py.sum w / Py.len w).
Proof.
  intro w. unfold smooth. fold w.
  rewrite truediv_ok; [reflexivity|].
  rewrite len_zero_iff. apply deque_append_nonempty.
  unfold SMOOTHING_WINDOW_SIZE. lia.
Qed.

(* ------------------------------------------------------------------ *)
(** ** The hip-lift check *)

Lemma hip_lift_detection_skip (hip : Q) (hs : HipState) :
  hip_lift_detection None hip hs = inr hs.
Proof. destruct hs as [[b t] s]. reflexivity. Qed.

Lemma hip_lift_detection_sticky bench hip b t s b' t' s' :
  hip_lift_detection bench hip (b, t, s) = inr (b', t', s') ->
  s' = s \/ s' = STATUS_FAIL_HIP.
Proof.
  unfold hip_lift_detection. intros H.
  destruct bench as [bb|]; [|left; congruence].
  destruct b as [b0|].
  - destruct t as [t0|]; [|discriminate].
    destruct (Py.gt _ _); inversion H; auto.
  - destruct (Py.gt _ _); inversion H; auto.
Qed.

Lemma hip_lift_detection_keeps_baseline bench hip b0 t s b' t' s' :
  hip_lift_detection bench hip (Some b0, t, s) = inr (b', t', s') ->
  b' = Some b0 /\ t' = t.
Proof.
  unfold hip_lift_detection. intros H.
  destruct bench as [bb|]; [|inversion H; auto].
  destruct t as [t0|]; [|discriminate].
  destruct (Py.gt _ _); inversion H; auto.
Qed.

Lemma calibration_frame_compliant (d : Q) :
  0 <= d -> Py.gt d (d + d * HIP_LIFT_RATIO) = false.
Proof.
  intros H. apply gt_false_iff. unfold HIP_LIFT_RATIO.
  rewrite <- (Qplus_0_r d) at 1. apply Qplus_le_compat; [apply Qle_refl|].
  apply Qmult_le_0_compat; [exact H|]. unfold Qle. simpl. lia.
Qed.

Lemma hip_lift_detection_calibrates bb hip t s :
  let d := Qabs (hip - box_top bb) in
  hip_lift_detection (Some bb) hip (None, t, s)
  = inr (Some d, Some (d * HIP_LIFT_RATIO), s).
Proof.
  intro d. unfold hip_lift_detection. fold d.
  now rewrite (calibration_frame_compliant d (Qabs_nonneg _)).
Qed.

Lemma hip_lift_detection_total bench hip b t s :
  (b <> None -> t <> None) ->
  exists b' t' s',
    hip_lift_detection bench hip (b, t, s) = inr (b', t', s') /\
    (b' <> None -> t' <> None).
Proof.
  intros Hp. destruct bench as [bb|].
  - destruct b as [b0|].
    + destruct t as [t0|]; [|exfalso; apply Hp; congruence].
      unfold hip_lift_detection.
      destruct (Py.gt _ _); do 3 eexists; split; try reflexivity; congruence.
    + rewrite hip_lift_detection_calibrates.
      do 3 eexists; split; try reflexivity; congruence.
  - rewrite hip_lift_detection_skip. do 3 eexists; split; [reflexivity|exact Hp].
Qed.

(* ------------------------------------------------------------------ *)
(** ** The rep state machine *)

(** The [if]/[elif]/[elif] chain, with the monad unfolded. *)
Lemma rep_state_machine_eq bench d e thr s self :
  rep_state_machine bench d e thr s self =
  if rep_start_test self d then (rep_started d e, inr s)
  else if rep_track_test self d then (rep_tracked self d e, inr s)
  else if rep_end_test self d then (__init__, inr (judge bench thr self s))
  else (self, inr s).
Proof.
  unfold rep_state_machine, bind, get_self, set_self, ret.
  destruct (rep_start_test self d); [reflexivity|].
  destruct (rep_track_test self d); [reflexivity|].
  destruct (rep_end_test self d); reflexivity.
Qed.

Lemma judge_sticky bench thr self s :
  judge bench thr self s = s \/ judge bench thr self s = STATUS_FAIL_SHALLOW.
Proof.
  unfold judge. destruct bench; auto. destruct (Py.gt _ _); auto.
Qed.

Lemma rep_state_machine_total bench d e thr s self :
  exists self' s',
    rep_state_machine bench d e thr s self = (self', inr s') /\
    (s' = s \/ s' = STATUS_FAIL_SHALLOW).
Proof.
  rewrite rep_state_machine_eq.
  destruct (rep_start_test self d); [eauto|].
  destruct (rep_track_test self d); [eauto|].
  destruct (rep_end_test self d); [|eauto].
  do 2 eexists; split; [reflexivity|apply judge_sticky].
Qed.

Lemma shallow_rep_detection_total bench bar hip sh sm s self :
  exists self' s',
    shallow_rep_detection bench bar hip sh sm s self = (self', inr s') /\
    (s' = s \/ s' = STATUS_FAIL_SHALLOW).
Proof.
  unfold shallow_rep_detection. destruct bar as [b|].
  - apply rep_state_machine_total.
  - unfold ret. eauto.
Qed.

(** The three tests exclude one another already on the state the frame
    starts from, before the chain orders them. *)
Lemma rep_tests_exclusive self d :
  (rep_start_test self d = true -> rep_track_test self d = false) /\
  (rep_start_test self d = true -> rep_end_test self d = false) /\
  (rep_track_test self d = true -> rep_end_test self d = false).
Proof.
  unfold rep_start_test, rep_track_test, rep_end_test.
  destruct (is_in_rep self); simpl; repeat split; try discriminate; auto.
  intros H. apply lt_iff in H. apply gt_false_iff.
  apply Qlt_le_weak. eapply Qlt_le_trans; [exact H|].
  rewrite <- (Qplus_0_r (min_bar_shoulder_dist self)) at 1.
  apply Qplus_le_compat; [apply Qle_refl|]. unfold Qle. simpl. lia.
Qed.

(* ------------------------------------------------------------------ *)
(** ** One frame *)

Lemma store_row_inv fps bench bar c st st' :
  store_row fps bench bar c st = inr st' ->
  fps <> 0%Z /\
  baseline_hip_bench_dist st' = baseline_hip_bench_dist st /\
  dynamic_hip_threshold st' = dynamic_hip_threshold st /\
  hip_lift_status st' = hip_lift_status st /\
  shallow_rep_status st' = shallow_rep_status st /\
  elbow_y_buffer st' = elbow_y_buffer st /\
  frame_idx st' = frame_idx st /\
  time_series_data st' =
    time_series_data st ++
    [ {| frame := frame_idx st;
         timestamp := inject_Z (frame_idx st) / inject_Z fps;
         hip_y := float_or_none (fst (fst c));
         elbow_y := float_or_none (snd (fst c));
         shoulder_y := float_or_none (snd c);
         bench_detected := Py.present bench;
         bar_detected := Py.present bar |} ].
Proof.
  unfold store_row, Py.truediv. destruct c as [[h e] s].
  destruct (Qeq_bool (inject_Z fps) 0) eqn:E; [discriminate|].
  intros H. inversion H; subst; clear H. simpl.
  repeat split; try reflexivity.
  intros ->. discriminate.
Qed.

Lemma store_row_raises fps bench bar c st :
  fps = 0%Z -> store_row fps bench bar c st = inl Py.ZeroDivisionError.
Proof.
  intros ->. unfold store_row. destruct c as [[h e] s]. reflexivity.
Qed.

Lemma store_row_total fps bench bar c st :
  fps <> 0%Z -> exists st', store_row fps bench bar c st = inr st'.
Proof.
  intros H. unfold store_row. destruct c as [[h e] s].
  rewrite truediv_ok; [eauto|]. now rewrite inject_Z_zero_iff.
Qed.

(** A frame without a pose goes straight to the time series. *)
Lemma frame_body_no_pose fps height f st self :
  pose_landmarks f = None ->
  frame_body fps height f st self =
  (self, store_row fps (bench_of f) (bar_of f) (None, None, None) (next_frame st)).
Proof.
  intros Hp. unfold frame_body, bench_of, bar_of.
  destruct (detect (results f)) as [bench bar]. rewrite Hp. reflexivity.
Qed.

(** A frame with a pose, when the hip-lift check returns. *)
Lemma frame_body_pose fps height f st self lm b t hs self' ss :
  pose_landmarks f = Some lm ->
  hip_lift_detection (bench_of f) (hip_of height lm)
    (baseline_hip_bench_dist st, dynamic_hip_threshold st, hip_lift_status st)
    = inr (b, t, hs) ->
  shallow_rep_detection (bench_of f) (bar_of f) (hip_of height lm)
    (shoulder_of height lm) (smoothed_of height lm st) (shallow_rep_status st) self
    = (self', inr ss) ->
  frame_body fps height f st self =
  (self', store_row fps (bench_of f) (bar_of f)
            (Some (hip_of height lm), Some (elbow_of height lm),
             Some (shoulder_of height lm))
            (after_pose st b t hs ss (window_of height lm st))).
Proof.
  intros Hp Hh Hs. unfold frame_body, bench_of, bar_of in *.
  destruct (detect (results f)) as [bench bar]. simpl fst in *. simpl snd in *.
  rewrite Hp. unfold pose_block, bind, lift.
  fold (hip_of height lm) (elbow_of height lm) (shoulder_of height lm).
  rewrite smooth_ok.
  cbn [next_frame elbow_y_buffer shallow_rep_status time_series_data frame_idx
       baseline_hip_bench_dist dynamic_hip_threshold hip_lift_status].
  fold (window_of height lm st). fold (smoothed_of height lm st).
  rewrite Hh, Hs. reflexivity.
Qed.

(** A frame with a pose whose hip-lift check raises. *)
Lemma frame_body_pose_raises fps height f st self lm e :
  pose_landmarks f = Some lm ->
  hip_lift_detection (bench_of f) (hip_of height lm)
    (baseline_hip_bench_dist st, dynamic_hip_threshold st, hip_lift_status st)
    = inl e ->
  frame_body fps height f st self = (self, inl e).
Proof.
  intros Hp Hh. unfold frame_body, bench_of in *.
  destruct (detect (results f)) as [bench bar]. simpl fst in *.
  rewrite Hp. unfold pose_block, bind, lift.
  fold (hip_of height lm) (elbow_of height lm) (shoulder_of height lm).
  rewrite smooth_ok.
  cbn [next_frame baseline_hip_bench_dist dynamic_hip_threshold hip_lift_status].
  rewrite Hh. reflexivity.
Qed.

(** Everything a completed frame did. *)
Lemma frame_body_inv fps height f st self self' st' :
  frame_body fps height f st self = (self', inr st') ->
  fps <> 0%Z /\
  frame_idx st' = (frame_idx st + 1)%Z /\
  time_series_data st' =
    time_series_data st ++ [row_of fps height f (frame_idx st + 1)] /\
  match pose_landmarks f with
  | None =>
      self' = self /\
      baseline_hip_bench_dist st' = baseline_hip_bench_dist st /\
      dynamic_hip_threshold st' = dynamic_hip_threshold st /\
      hip_lift_status st' = hip_lift_status st /\
      shallow_rep_status st' = shallow_rep_status st /\
      elbow_y_buffer st' = elbow_y_buffer st
  | Some lm =>
      hip_lift_detection (bench_of f) (hip_of height lm)
        (baseline_hip_bench_dist st, dynamic_hip_threshold st, hip_lift_status st)
        = inr (baseline_hip_bench_dist st', dynamic_hip_threshold st',
               hip_lift_status st') /\
      shallow_rep_detection (bench_of f) (bar_of f) (hip_of height lm)
        (shoulder_of height lm) (smoothed_of height lm st)
        (shallow_rep_status st) self
        = (self', inr (shallow_rep_status st')) /\
      elbow_y_buffer st' = window_of height lm st
  end.
Proof.
  intros H. destruct (pose_landmarks f) as [lm|] eqn:Hp.
  - destruct (hip_lift_detection (bench_of f) (hip_of height lm)
                (baseline_hip_bench_dist st, dynamic_hip_threshold st,
                 hip_lift_status st)) as [e|[[b t] hs]] eqn:Hh.
    + rewrite (frame_body_pose_raises _ _ _ _ _ _ _ Hp Hh) in H. discriminate.
    + destruct (shallow_rep_detection_total (bench_of f) (bar_of f)
                  (hip_of height lm) (shoulder_of height lm)
                  (smoothed_of height lm st) (shallow_rep_status st) self)
        as (s1 & ss & Hs & _).
      rewrite (frame_body_pose _ _ _ _ _ _ _ _ _ _ _ Hp Hh Hs) in H.
      pose proof (f_equal fst H) as Hself. pose proof (f_equal snd H) as Hrow.
      cbn [fst snd] in Hself, Hrow. subst s1.
      apply store_row_inv in Hrow.
      destruct Hrow as (Hfps & Hb & Ht & Hhs & Hss & Hbuf & Hidx & Hts).
      cbn [after_pose baseline_hip_bench_dist dynamic_hip_threshold hip_lift_status
           shallow_rep_status elbow_y_buffer frame_idx time_series_data] in *.
      rewrite Hb, Ht, Hhs, Hss, Hbuf, Hidx, Hts.
      unfold row_of, coords_of. rewrite Hp. cbn [fst snd]. auto 10.
  - rewrite (frame_body_no_pose _ _ _ _ _ Hp) in H.
    pose proof (f_equal fst H) as Hself. pose proof (f_equal snd H) as Hrow.
    cbn [fst snd] in Hself, Hrow.
    apply store_row_inv in Hrow.
    destruct Hrow as (Hfps & Hb & Ht & Hhs & Hss & Hbuf & Hidx & Hts).
    cbn [next_frame baseline_hip_bench_dist dynamic_hip_threshold hip_lift_status
         shallow_rep_status elbow_y_buffer frame_idx time_series_data] in *.
    rewrite Hb, Ht, Hhs, Hss, Hbuf, Hidx, Hts.
    unfold row_of, coords_of. rewrite Hp. cbn [fst snd]. auto 10.
Qed.

(** A frame completes whenever [fps] is not zero and the baseline
    variables are paired. *)
Lemma frame_body_total fps height f st self :
  fps <> 0%Z -> baseline_paired st ->
  exists self' st',
    frame_body fps height f st self = (self', inr st') /\ baseline_paired st'.
Proof.
  intros Hfps Hpair. destruct (pose_landmarks f) as [lm|] eqn:Hp.
  - destruct (hip_lift_detection_total (bench_of f) (hip_of height lm)
                (baseline_hip_bench_dist st) (dynamic_hip_threshold st)
                (hip_lift_status st) Hpair) as (b & t & hs & Hh & Hpair').
    destruct (shallow_rep_detection_total (bench_of f) (bar_of f)
                (hip_of height lm) (shoulder_of height lm)
                (smoothed_of height lm st) (shallow_rep_status st) self)
      as (s1 & ss & Hs & _).
    rewrite (frame_body_pose _ _ _ _ _ _ _ _ _ _ _ Hp Hh Hs).
    destruct (store_row_total fps (bench_of f) (bar_of f)
                (Some (hip_of height lm), Some (elbow_of height lm),
                 Some (shoulder_of height lm))
                (after_pose st b t hs ss (window_of height lm st)) Hfps)
      as (st' & Hrow).
    rewrite Hrow. exists s1, st'. split; [reflexivity|].
    apply store_row_inv in Hrow. destruct Hrow as (_ & Hb & Ht & _).
    unfold baseline_paired. rewrite Hb, Ht. exact Hpair'.
  - rewrite (frame_body_no_pose _ _ _ _ _ Hp).
    destruct (store_row_total fps (bench_of f) (bar_of f) (None, None, None)
                (next_frame st) Hfps) as (st' & Hrow).
    rewrite Hrow. exists self, st'. split; [reflexivity|].
    apply store_row_inv in Hrow. destruct Hrow as (_ & Hb & Ht & _).
    unfold baseline_paired. rewrite Hb, Ht. exact Hpair.
Qed.

(* ------------------------------------------------------------------ *)
(** ** The loop and the whole call *)

Lemma frame_loop_app fps height pre post st self :
  frame_loop fps height (pre ++ post) st self =
  match frame_loop fps height pre st self with
  | (self1, inl e) => (self1, inl e)
  | (self1, inr st1) => frame_loop fps height post st1 self1
  end.
Proof.
  revert st self. induction pre as [|f pre IH]; intros st self.
  - reflexivity.
  - simpl. unfold bind.
    destruct (frame_body fps height f st self) as [self1 [e|st1]]; [reflexivity|].
    apply IH.
Qed.

(** A property of the analyzer and the locals that every completed frame
    of the list preserves holds after the loop. *)
Lemma frame_loop_preserves (P : Analyzer -> Locals -> Prop) fps height fs :
  (forall f st self self' st',
      In f fs -> P self st ->
      frame_body fps height f st self = (self', inr st') -> P self' st') ->
  forall st self self' st',
    P self st -> frame_loop fps height fs st self = (self', inr st') -> P self' st'.
Proof.
  induction fs as [|f fs IH]; intros Hstep st self self' st' HP H.
  - inversion H; subst. exact HP.
  - simpl in H. unfold bind in H.
    destruct (frame_body fps height f st self) as [self1 [e|st1]] eqn:Hf;
      [discriminate|].
    eapply IH; [| |exact H].
    + intros f0 s0 a0 a1 s1 Hin. apply Hstep. now right.
    + eapply Hstep; [now left|exact HP|exact Hf].
Qed.

Lemma frame_loop_total fps height fs st self :
  fps <> 0%Z -> baseline_paired st ->
  exists self' st', frame_loop fps height fs st self = (self', inr st').
Proof.
  intros Hfps. revert st self.
  induction fs as [|f fs IH]; intros st self Hpair.
  - simpl. unfold ret. eauto.
  - destruct (frame_body_total fps height f st self Hfps Hpair)
      as (self1 & st1 & Hf & Hpair1).
    simpl. unfold bind. rewrite Hf. apply IH. exact Hpair1.
Qed.

Lemma init_locals_paired : baseline_paired init_locals.
Proof. intros H. now contradiction H. Qed.

Lemma analyze_video_ready w self :
  ready w ->
  analyze_video w self =
  match run_frames w (frames (cap w)) self with
  | (self', inl e) => (self', inl e)
  | (self', inr st) => (self', make_results (total_frames_of w) (fps_of w) st)
  end.
Proof.
  intros (H1 & H2 & H3 & H4).
  unfold analyze_video, _load_models, bind, raise, ret, lift.
  rewrite H1, H2, H3, H4. reflexivity.
Qed.

Lemma analyze_video_inv w self self' res :
  analyze_video w self = (self', inr res) ->
  exists st,
    run_frames w (frames (cap w)) self = (self', inr st) /\
    make_results (total_frames_of w) (fps_of w) st = inr res.
Proof.
  unfold analyze_video, _load_models, bind, raise, ret, lift.
  destruct (input_video_exists w); [|discriminate]. simpl.
  destruct (model_exists w); [|discriminate]. simpl.
  destruct (isOpened (cap w)); [|discriminate]. simpl.
  destruct (writer_isOpened w); [|discriminate]. simpl.
  fold (fps_of w) (height_of w) (total_frames_of w).
  fold (run_frames w (frames (cap w))).
  destruct (run_frames w (frames (cap w)) self) as [s [e|st]]; [discriminate|].
  intros H. inversion H; subst. eauto.
Qed.

Lemma make_results_inv total fps st res :
  make_results total fps st = inr res ->
  r_overall_status res = overall_status (hip_lift_status st) (shallow_rep_status st) /\
  r_hip_lift_status res = hip_lift_status st /\
  r_shallow_rep_status res = shallow_rep_status st /\
  r_hip_lift_detected res = status_ne (hip_lift_status st) STATUS_OK /\
  r_shallow_rep_detected res = status_ne (shallow_rep_status st) STATUS_OK /\
  r_time_series_data res = time_series_data st.
Proof.
  unfold make_results. destruct (video_duration total fps); [discriminate|].
  intros H. inversion H; subst. simpl. auto 10.
Qed.

Lemma video_duration_total total fps : exists d, video_duration total fps = inr d.
Proof.
  unfold video_duration. destruct (Z.gtb_spec fps 0) as [H|H]; [|eauto].
  rewrite truediv_ok; [eauto|]. rewrite inject_Z_zero_iff. lia.
Qed.

(** With every check passed and a frame rate other than zero, the call
    returns a result. *)
Lemma analyze_video_returns w self :
  ready w -> fps_of w <> 0%Z ->
  exists self' res, analyze_video w self = (self', inr res).
Proof.
  intros Hr Hfps. rewrite (analyze_video_ready _ _ Hr). unfold run_frames.
  destruct (frame_loop_total (fps_of w) (height_of w) (frames (cap w))
              init_locals self Hfps init_locals_paired) as (self' & st & Hl).
  rewrite Hl. unfold make_results.
  destruct (video_duration_total (total_frames_of w) (fps_of w)) as (d & Hd).
  rewrite Hd. eauto.
Qed.

(* ------------------------------------------------------------------ *)
(** ** Fault flags *)

Lemma frame_body_sticky fps height f st self self' st' :
  frame_body fps height f st self = (self', inr st') ->
  (hip_lift_status st' = hip_lift_status st \/
   hip_lift_status st' = STATUS_FAIL_HIP) /\
  (shallow_rep_status st' = shallow_rep_status st \/
   shallow_rep_status st' = STATUS_FAIL_SHALLOW).
Proof.
  intros H. apply frame_body_inv in H. destruct H as (_ & _ & _ & H).
  destruct (pose_landmarks f) as [lm|].
  - destruct H as (Hh & Hs & _). split.
    + eapply hip_lift_detection_sticky. exact Hh.
    + destruct (shallow_rep_detection_total (bench_of f) (bar_of f)
                  (hip_of height lm) (shoulder_of height lm)
                  (smoothed_of height lm st) (shallow_rep_status st) self)
        as (s1 & ss & Hs' & Hor).
      rewrite Hs in Hs'. inversion Hs'; subst. exact Hor.
  - destruct H as (_ & _ & _ & Hh & Hs & _). auto.
Qed.

Lemma frame_loop_sticky fps height fs st self self' st' :
  frame_loop fps height fs st self = (self', inr st') ->
  (hip_lift_status st = STATUS_FAIL_HIP -> hip_lift_status st' = STATUS_FAIL_HIP) /\
  (shallow_rep_status st = STATUS_FAIL_SHALLOW ->
   shallow_rep_status st' = STATUS_FAIL_SHALLOW).
Proof.
  intros H. split; intros Hfail.
  - apply (frame_loop_preserves
             (fun _ s => hip_lift_status s = STATUS_FAIL_HIP) fps height fs)
      with (st := st) (self := self) (self' := self'); auto.
    intros f s a a' s' _ Hs Hf. apply frame_body_sticky in Hf.
    destruct Hf as [[Hf|Hf] _]; congruence.
  - apply (frame_loop_preserves
             (fun _ s => shallow_rep_status s = STATUS_FAIL_SHALLOW) fps height fs)
      with (st := st) (self := self) (self' := self'); auto.
    intros f s a a' s' _ Hs Hf. apply frame_body_sticky in Hf.
    destruct Hf as [_ [Hf|Hf]]; congruence.
Qed.

(** C2.  Both fault flags start at OK and are one-way latches: when a flag
    holds its FAIL value after some frames [pre] of a run, it still holds
    it after any further frames [mid] of that run, and the result of the
    run reports it (the status, the detected flag and the overall
    status), whatever the later frames contain. *)
Theorem sticky_fault_flags (w : World) (self : Analyzer)
    (pre mid rest : list Frame) (self1 self2 : Analyzer) (st1 st2 : Locals) :
  frames (cap w) = pre ++ mid ++ rest ->
  run_frames w pre self = (self1, inr st1) ->
  run_frames w (pre ++ mid) self = (self2, inr st2) ->
  (hip_lift_status init_locals = STATUS_OK /\
   shallow_rep_status init_locals = STATUS_OK) /\
  (hip_lift_status st1 = STATUS_FAIL_HIP ->
   hip_lift_status st2 = STATUS_FAIL_HIP /\
   forall self' res, analyze_video w self = (self', inr res) ->
     r_hip_lift_status res = STATUS_FAIL_HIP /\
     r_hip_lift_detected res = true /\
     r_overall_status res = STATUS_EGO_LIFT) /\
  (shallow_rep_status st1 = STATUS_FAIL_SHALLOW ->
   shallow_rep_status st2 = STATUS_FAIL_SHALLOW /\
   forall self' res, analyze_video w self = (self', inr res) ->
     r_shallow_rep_status res = STATUS_FAIL_SHALLOW /\
     r_shallow_rep_detected res = true /\
     r_overall_status res = STATUS_EGO_LIFT).
Proof.
  intros Hfs Hpre Hmid. unfold run_frames in *.
  rewrite frame_loop_app, Hpre in Hmid.
  destruct (frame_loop_sticky _ _ _ _ _ _ _ Hmid) as [Hh Hs].
  split; [split; reflexivity|].
  split; intros Hfail; (split; [auto|]); intros self' res Hres;
    apply analyze_video_inv in Hres; destruct Hres as (stf & Hrun & Hres);
    unfold run_frames in Hrun; rewrite Hfs, frame_loop_app, Hpre in Hrun;
    destruct (frame_loop_sticky _ _ _ _ _ _ _ Hrun) as [Hh' Hs'];
    apply make_results_inv in Hres;
    destruct Hres as (Ho & Hrh & Hrs & Hdh & Hds & _).
  - rewrite Ho, Hrh, Hdh, (Hh' Hfail). auto.
  - rewrite Ho, Hrs, Hds, (Hs' Hfail). split; [reflexivity|]. split; [reflexivity|].
    unfold overall_status.
    destruct (status_ne (hip_lift_status stf) STATUS_OK); reflexivity.
Qed.

(** A hip lift on the second of three frames is still reported after a
    compliant third frame. *)
Lemma sticky_fault_flags_witness :
  let w := Sample.world 30 [Sample.hip_calm; Sample.hip_lifted; Sample.hip_calm] in
  hip_lift_status
    (Sample.locals_of
       (run_frames w [Sample.hip_calm; Sample.hip_lifted; Sample.hip_calm] __init__))
  = STATUS_FAIL_HIP.
Proof.
  intro w.
  pose (pre := [Sample.hip_calm; Sample.hip_lifted]).
  pose (mid := [Sample.hip_calm]).
  pose (r1 := run_frames w pre __init__).
  pose (r2 := run_frames w (pre ++ mid) __init__).
  assert (H1 : frames (cap w) = pre ++ mid ++ []) by reflexivity.
  assert (H2 : run_frames w pre __init__ = (fst r1, inr (Sample.locals_of r1)))
    by (vm_compute; reflexivity).
  assert (H3 : run_frames w (pre ++ mid) __init__
               = (fst r2, inr (Sample.locals_of r2)))
    by (vm_compute; reflexivity).
  assert (Hfail : hip_lift_status (Sample.locals_of r1) = STATUS_FAIL_HIP)
    by (vm_compute; reflexivity).
  destruct (sticky_fault_flags w __init__ pre mid [] _ _ _ _ H1 H2 H3)
    as (_ & Hh & _).
  exact (proj1 (Hh Hfail)).
Defined.

(* ------------------------------------------------------------------ *)
(** ** Rep transitions *)

Lemma rep_start_test_iff self d :
  rep_start_test self d = true <->
  is_in_rep self = false /\ d < min_bar_shoulder_dist self - 30.
Proof.
  unfold rep_start_test. rewrite andb_true_iff, negb_true_iff, lt_iff. tauto.
Qed.

Lemma rep_track_test_iff self d :
  rep_track_test self d = true <->
  is_in_rep self = true /\ d < min_bar_shoulder_dist self.
Proof.
  unfold rep_track_test. rewrite andb_true_iff, lt_iff. tauto.
Qed.

Lemma rep_end_test_iff self d :
  rep_end_test self d = true <->
  is_in_rep self = true /\ min_bar_shoulder_dist self + 30 < d.
Proof.
  unfold rep_end_test. rewrite andb_true_iff, gt_iff. tauto.
Qed.

(** C3.  On a frame on which the rep state machine runs, exactly one of
    four things happens, and each fixes the outcome of all three tests:
    only the start test holds and the start rule runs; only the
    extend-minimum test holds and that rule runs; only the end test holds
    and the end-and-judge rule runs; or no test holds and nothing changes.
    So at most one rule fires, no frame both starts and ends a rep, a
    start has [bar_shoulder_dist < min_bar_shoulder_dist - 30] outside a
    rep, and an end has [bar_shoulder_dist > min_bar_shoulder_dist + 30]
    inside one. *)
Theorem rep_rules_exclusive (bench : option IBox) (d e thr : Q) (s : string)
    (self : Analyzer) :
  let tests := (rep_start_test self d, rep_track_test self d, rep_end_test self d) in
  let after := rep_state_machine bench d e thr s self in
  (tests = (true, false, false) /\
   is_in_rep self = false /\ d < min_bar_shoulder_dist self - 30 /\
   after = ({| is_in_rep := true; min_bar_shoulder_dist := d;
               min_elbow_y_at_bottom := e |}, inr s)) \/
  (tests = (false, true, false) /\
   is_in_rep self = true /\ d < min_bar_shoulder_dist self /\
   after = ({| is_in_rep := true; min_bar_shoulder_dist := d;
               min_elbow_y_at_bottom := e |}, inr s)) \/
  (tests = (false, false, true) /\
   is_in_rep self = true /\ min_bar_shoulder_dist self + 30 < d /\
   after = ({| is_in_rep := false; min_bar_shoulder_dist := 1000;
               min_elbow_y_at_bottom := 2000 |}, inr (judge bench thr self s))) \/
  (tests = (false, false, false) /\ after = (self, inr s)).
Proof.
  intros tests after. subst tests after. rewrite rep_state_machine_eq.
  destruct (rep_tests_exclusive self d) as (Hst & Hse & Hte).
  destruct (rep_start_test self d) eqn:Es.
  - left. rewrite (Hst eq_refl), (Hse eq_refl).
    apply rep_start_test_iff in Es. destruct Es. auto.
  - destruct (rep_track_test self d) eqn:Et.
    + right; left. rewrite (Hte eq_refl).
      apply rep_track_test_iff in Et. destruct Et as [Hin Hlt].
      unfold rep_tracked. rewrite Hin. auto.
    + destruct (rep_end_test self d) eqn:Ee.
      * right; right; left. apply rep_end_test_iff in Ee. destruct Ee. auto.
      * right; right; right. auto.
Qed.

(** The rep state machine of a frame with a pose and a bar box. *)
Lemma frame_body_rep fps height f st self self' st' lm bar :
  pose_landmarks f = Some lm -> bar_of f = Some bar ->
  frame_body fps height f st self = (self', inr st') ->
  rep_state_machine (bench_of f)
    (Qabs (box_bottom bar - shoulder_of height lm))
    (smoothed_of height lm st)
    (dynamic_shallow_threshold (Some (shoulder_of height lm))
                               (Some (hip_of height lm)))
    (shallow_rep_status st) self
  = (self', inr (shallow_rep_status st')).
Proof.
  intros Hp Hbar H. apply frame_body_inv in H. rewrite Hp in H.
  destruct H as (_ & _ & _ & _ & Hs & _). rewrite Hbar in Hs. exact Hs.
Qed.

(** C5.  On a frame on which the end-and-judge rule fires (a pose and a
    bar box are there, a rep is in progress and the bar-to-shoulder
    distance exceeds the tracked minimum by more than 30), the tracker is
    reset to [is_in_rep = False], [min_bar_shoulder_dist = 1000] and
    [min_elbow_y_at_bottom = 2000] whatever the judgment; with a bench box
    and [min_elbow_y_at_bottom > bench top + shallow threshold] the
    shallow-rep status becomes its FAIL value; with no bench box the
    status is left as it was. *)
Theorem end_and_judge (fps height : Z) (f : Frame) (st st' : Locals)
    (self self' : Analyzer) (lm : Landmarks) (bar : IBox) :
  pose_landmarks f = Some lm ->
  bar_of f = Some bar ->
  is_in_rep self = true ->
  min_bar_shoulder_dist self + 30 < Qabs (box_bottom bar - shoulder_of height lm) ->
  frame_body fps height f st self = (self', inr st') ->
  (is_in_rep self' = false /\
   min_bar_shoulder_dist self' = 1000 /\
   min_elbow_y_at_bottom self' = 2000) /\
  (forall bb,
     bench_of f = Some bb ->
     box_top bb + dynamic_shallow_threshold (Some (shoulder_of height lm))
                                            (Some (hip_of height lm))
       < min_elbow_y_at_bottom self ->
     shallow_rep_status st' = STATUS_FAIL_SHALLOW) /\
  (bench_of f = None -> shallow_rep_status st' = shallow_rep_status st).
Proof.
  intros Hp Hbar Hin Hd H.
  pose proof (frame_body_rep _ _ _ _ _ _ _ _ _ Hp Hbar H) as Hr.
  rewrite rep_state_machine_eq in Hr.
  assert (He : rep_end_test self (Qabs (box_bottom bar - shoulder_of height lm)) = true)
    by (apply rep_end_test_iff; auto).
  destruct (rep_tests_exclusive self (Qabs (box_bottom bar - shoulder_of height lm)))
    as (Hst & Hse & Hte).
  destruct (rep_start_test self _) eqn:Es; [rewrite (Hse eq_refl) in He; discriminate|].
  destruct (rep_track_test self _) eqn:Et; [rewrite (Hte eq_refl) in He; discriminate|].
  rewrite He in Hr. inversion Hr as [[Hself Hss]]. split; [auto|]. split.
  - intros bb Hb Hgt. unfold judge. rewrite Hb.
    apply gt_iff in Hgt. now rewrite Hgt.
  - intros Hb. unfold judge. now rewrite Hb.
Qed.

(** A rep in progress with its minimum at 100 and the elbows at 700 ends
    on a frame with the bar 200 below the shoulders; the bench top is at
    600 and the threshold is 10, so the rep is judged shallow. *)
Lemma end_and_judge_witness :
  let self := {| is_in_rep := true; min_bar_shoulder_dist := 100;
                 min_elbow_y_at_bottom := 700 |} in
  let r := frame_body 30 1000 Sample.bar_high init_locals self in
  fst r = __init__ /\
  shallow_rep_status (Sample.locals_of r) = STATUS_FAIL_SHALLOW.
Proof.
  intros self r.
  assert (Hp : pose_landmarks Sample.bar_high = Some (Sample.pose 0.5 0.7 0.3))
    by reflexivity.
  assert (Hbar : bar_of Sample.bar_high = Some (100, 0, 500, 500)%Z)
    by (vm_compute; reflexivity).
  assert (Hin : is_in_rep self = true) by reflexivity.
  assert (Hd : min_bar_shoulder_dist self + 30
               < Qabs (box_bottom (100, 0, 500, 500)%Z
                       - shoulder_of 1000 (Sample.pose 0.5 0.7 0.3)))
    by (vm_compute; reflexivity).
  assert (Hf : frame_body 30 1000 Sample.bar_high init_locals self
               = (fst r, inr (Sample.locals_of r)))
    by (vm_compute; reflexivity).
  destruct (end_and_judge _ _ _ _ _ _ _ _ _ Hp Hbar Hin Hd Hf)
    as ((H1 & H2 & H3) & Hfail & _).
  split.
  - destruct (fst r) as [a b c]. simpl in H1, H2, H3. subst. reflexivity.
  - apply (Hfail (50, 600, 600, 900)%Z); vm_compute; reflexivity.
Defined.

(* ------------------------------------------------------------------ *)
(** ** Calibration of the hip-lift baseline *)

Lemma frame_body_hip_skip fps height f st self self' st' :
  uncalibrating f ->
  frame_body fps height f st self = (self', inr st') ->
  baseline_hip_bench_dist st' = baseline_hip_bench_dist st /\
  dynamic_hip_threshold st' = dynamic_hip_threshold st /\
  hip_lift_status st' = hip_lift_status st.
Proof.
  intros Hu H. apply frame_body_inv in H. destruct H as (_ & _ & _ & H).
  destruct (pose_landmarks f) as [lm|] eqn:Hp.
  - destruct Hu as [Hu|Hu]; [congruence|].
    destruct H as (Hh & _). rewrite Hu, hip_lift_detection_skip in Hh.
    inversion Hh. auto.
  - destruct H as (_ & Hb & Ht & Hs & _). auto.
Qed.

Lemma frame_body_keeps_baseline fps height f st self self' st' b0 :
  baseline_hip_bench_dist st = Some b0 ->
  frame_body fps height f st self = (self', inr st') ->
  baseline_hip_bench_dist st' = Some b0 /\
  dynamic_hip_threshold st' = dynamic_hip_threshold st.
Proof.
  intros Hb H. apply frame_body_inv in H. destruct H as (_ & _ & _ & H).
  destruct (pose_landmarks f) as [lm|].
  - destruct H as (Hh & _). rewrite Hb in Hh.
    apply hip_lift_detection_keeps_baseline in Hh. exact Hh.
  - destruct H as (_ & Hb' & Ht & _). rewrite Hb', Ht. auto.
Qed.

Lemma frame_loop_keeps_baseline fps height fs st self self' st' b0 t0 :
  baseline_hip_bench_dist st = Some b0 ->
  dynamic_hip_threshold st = t0 ->
  frame_loop fps height fs st self = (self', inr st') ->
  baseline_hip_bench_dist st' = Some b0 /\ dynamic_hip_threshold st' = t0.
Proof.
  intros Hb Ht H.
  apply (frame_loop_preserves
           (fun _ s => baseline_hip_bench_dist s = Some b0 /\
                       dynamic_hip_threshold s = t0) fps height fs)
    with (st := st) (self := self) (self' := self'); auto.
  intros f s a a' s' _ [Hb1 Ht1] Hf.
  destruct (frame_body_keeps_baseline _ _ _ _ _ _ _ _ Hb1 Hf) as [Hb2 Ht2].
  split; congruence.
Qed.

Lemma frame_loop_uncalibrated fps height fs st self self' st' :
  (forall g, In g fs -> uncalibrating g) ->
  frame_loop fps height fs st self = (self', inr st') ->
  baseline_hip_bench_dist st' = baseline_hip_bench_dist st /\
  dynamic_hip_threshold st' = dynamic_hip_threshold st /\
  hip_lift_status st' = hip_lift_status st.
Proof.
  intros Hall H.
  apply (frame_loop_preserves
           (fun _ s => baseline_hip_bench_dist s = baseline_hip_bench_dist st /\
                       dynamic_hip_threshold s = dynamic_hip_threshold st /\
                       hip_lift_status s = hip_lift_status st) fps height fs)
    with (st := st) (self := self) (self' := self'); auto.
  intros f s a a' s' Hin (Hb & Ht & Hs) Hf.
  destruct (frame_body_hip_skip _ _ _ _ _ _ _ (Hall f Hin) Hf) as (Hb' & Ht' & Hs').
  repeat split; congruence.
Qed.

(** C4.  In a run, let [f] be the first frame with both a pose (hence a
    hip coordinate) and a bench box.  Before [f] there is no baseline.
    After [f] the baseline is the hip-to-bench-top distance of [f] and the
    threshold is that distance times 0.5, and the hip-lift status is still
    OK.  After any further frames [post] the baseline and the threshold
    are the ones set on [f]. *)
Theorem single_calibration (w : World) (self : Analyzer)
    (pre post : list Frame) (f : Frame) (lm : Landmarks) (bb : IBox)
    (self1 self2 self3 : Analyzer) (st1 st2 st3 : Locals) :
  (forall g, In g pre -> uncalibrating g) ->
  pose_landmarks f = Some lm ->
  bench_of f = Some bb ->
  run_frames w pre self = (self1, inr st1) ->
  run_frames w (pre ++ [f]) self = (self2, inr st2) ->
  run_frames w (pre ++ [f] ++ post) self = (self3, inr st3) ->
  let d := Qabs (hip_of (height_of w) lm - box_top bb) in
  (baseline_hip_bench_dist st1 = None /\ dynamic_hip_threshold st1 = None) /\
  (baseline_hip_bench_dist st2 = Some d /\
   dynamic_hip_threshold st2 = Some (d * 0.5) /\
   hip_lift_status st2 = STATUS_OK) /\
  (baseline_hip_bench_dist st3 = Some d /\
   dynamic_hip_threshold st3 = Some (d * 0.5)).
Proof.
  intros Hpre Hp Hb H1 H2 H3 d. unfold run_frames in *.
  rewrite app_assoc, frame_loop_app, H2 in H3.
  rewrite frame_loop_app, H1 in H2.
  destruct (frame_loop_uncalibrated _ _ _ _ _ _ _ Hpre H1) as (Hb1 & Ht1 & Hs1).
  simpl in Hb1, Ht1, Hs1.
  simpl in H2. unfold bind in H2.
  destruct (frame_body (fps_of w) (height_of w) f st1 self1)
    as [sa [e|sb]] eqn:Hf; [discriminate|].
  inversion H2; subst sa sb. clear H2.
  apply frame_body_inv in Hf. rewrite Hp in Hf.
  destruct Hf as (_ & _ & _ & Hh & _).
  rewrite Hb, Hb1, hip_lift_detection_calibrates in Hh.
  inversion Hh as [[Hb2 Ht2 Hs2]]. fold d in Hb2, Ht2.
  assert (Hcal : baseline_hip_bench_dist st2 = Some d /\
                 dynamic_hip_threshold st2 = Some (d * 0.5)) by auto.
  split; [auto|]. split; [split; [tauto|split; [tauto|congruence]]|].
  destruct Hcal as [Hc1 Hc2].
  destruct (frame_loop_keeps_baseline _ _ _ _ _ _ _ _ _ Hc1 Hc2 H3). auto.
Qed.

(** The bench is first seen together with a pose on the second frame,
    with the hips 100 above it; a lifted frame, a frame without a pose and
    a frame without a bench follow, and the baseline stays at 100. *)
Lemma single_calibration_witness :
  let w := Sample.world 30 [Sample.bare_lifted; Sample.hip_calm; Sample.hip_lifted;
                            Sample.blank; Sample.bare_calm] in
  let st := Sample.locals_of (run_frames w (frames (cap w)) __init__) in
  let d := Qabs (hip_of 1000 (Sample.pose 0.5 0.7 0.3) - 600) in
  d == 100 /\
  baseline_hip_bench_dist st = Some d /\
  dynamic_hip_threshold st = Some (d * 0.5).
Proof.
  intros w st d.
  pose (pre := [Sample.bare_lifted]).
  pose (post := [Sample.hip_lifted; Sample.blank; Sample.bare_calm]).
  pose (r1 := run_frames w pre __init__).
  pose (r2 := run_frames w (pre ++ [Sample.hip_calm]) __init__).
  pose (r3 := run_frames w (pre ++ [Sample.hip_calm] ++ post) __init__).
  assert (Hpre : forall g, In g pre -> uncalibrating g).
  { intros g [<-|[]]. right. vm_compute. reflexivity. }
  assert (Hp : pose_landmarks Sample.hip_calm = Some (Sample.pose 0.5 0.7 0.3))
    by reflexivity.
  assert (Hb : bench_of Sample.hip_calm = Some (50, 600, 600, 900)%Z)
    by (vm_compute; reflexivity).
  assert (H1 : run_frames w pre __init__ = (fst r1, inr (Sample.locals_of r1)))
    by (vm_compute; reflexivity).
  assert (H2 : run_frames w (pre ++ [Sample.hip_calm]) __init__
               = (fst r2, inr (Sample.locals_of r2)))
    by (vm_compute; reflexivity).
  assert (H3 : run_frames w (pre ++ [Sample.hip_calm] ++ post) __init__
               = (fst r3, inr (Sample.locals_of r3)))
    by (vm_compute; reflexivity).
  destruct (single_calibration w __init__ pre post Sample.hip_calm _ _ _ _ _ _ _ _
              Hpre Hp Hb H1 H2 H3) as (_ & _ & Hb3 & Ht3).
  split; [vm_compute; reflexivity|]. split; [exact Hb3|exact Ht3].
Defined.

(* ------------------------------------------------------------------ *)
(** ** Gating of the hip-lift check *)

(** C7.  A frame without a pose (no hip coordinate) or without a bench box
    leaves the baseline, the threshold and the hip-lift status as they
    were.  So in a run whose frames all lack a bench box the hip-lift
    status is OK after every frame, the result reports OK and no hip lift,
    and such a run returns a result whenever the checks before the loop
    pass and the frame rate is not zero. *)
Theorem hip_lift_gated :
  (forall fps height f st self self' st',
      pose_landmarks f = None \/ bench_of f = None ->
      frame_body fps height f st self = (self', inr st') ->
      baseline_hip_bench_dist st' = baseline_hip_bench_dist st /\
      dynamic_hip_threshold st' = dynamic_hip_threshold st /\
      hip_lift_status st' = hip_lift_status st) /\
  (forall w self,
      (forall g, In g (frames (cap w)) -> bench_of g = None) ->
      (forall pre post self1 st1,
          frames (cap w) = pre ++ post ->
          run_frames w pre self = (self1, inr st1) ->
          hip_lift_status st1 = STATUS_OK) /\
      (forall self' res,
          analyze_video w self = (self', inr res) ->
          r_hip_lift_status res = STATUS_OK /\ r_hip_lift_detected res = false) /\
      (ready w -> fps_of w <> 0%Z ->
       exists self' res, analyze_video w self = (self', inr res))).
Proof.
  split; [exact frame_body_hip_skip|].
  intros w self Hall.
  assert (Hrun : forall fs self1 st1,
             (forall g, In g fs -> In g (frames (cap w))) ->
             run_frames w fs self = (self1, inr st1) ->
             hip_lift_status st1 = STATUS_OK).
  { intros fs self1 st1 Hsub H. unfold run_frames in H.
    apply frame_loop_uncalibrated in H; [tauto|].
    intros g Hg. right. apply Hall. apply Hsub. exact Hg. }
  split; [|split].
  - intros pre post self1 st1 Hfs H. apply (Hrun pre self1 st1); [|exact H].
    intros g Hg. rewrite Hfs. apply in_or_app. now left.
  - intros self' res H. apply analyze_video_inv in H.
    destruct H as (st & Hl & Hres).
    apply make_results_inv in Hres. destruct Hres as (_ & Hrh & _ & Hdh & _).
    rewrite Hrh, Hdh, (Hrun _ _ _ (fun g Hg => Hg) Hl). auto.
  - apply analyze_video_returns.
Qed.

(** With no bench box on any frame, hips that rise from 500 to 100 are
    not reported. *)
Lemma hip_lift_gated_witness :
  let w := Sample.world 30 [Sample.bare_calm; Sample.bare_lifted; Sample.bare_calm] in
  exists self' res,
    analyze_video w __init__ = (self', inr res) /\
    r_hip_lift_status res = STATUS_OK /\ r_hip_lift_detected res = false.
Proof.
  intros w.
  assert (Hall : forall g, In g (frames (cap w)) -> bench_of g = None).
  { intros g [<-|[<-|[<-|[]]]]; vm_compute; reflexivity. }
  assert (Hr : ready w) by (repeat split).
  assert (Hfps : fps_of w <> 0%Z) by (vm_compute; discriminate).
  destruct (proj2 hip_lift_gated w __init__ Hall) as (_ & Hres & Hret).
  destruct (Hret Hr Hfps) as (self' & res & H).
  exists self', res. split; [exact H|]. exact (Hres self' res H).
Defined.

(* ------------------------------------------------------------------ *)
(** ** The elbow smoothing window *)

Lemma fold_left_Qplus (xs : list Q) (a : Q) :
  fold_left Qplus xs a == a + fold_right Qplus 0 xs.
Proof.
  revert a. induction xs as [|x xs IH]; intros a; simpl.
  - now rewrite Qplus_0_r.
  - rewrite IH. now rewrite Qplus_assoc.
Qed.

Lemma sum_len_mean (xs : list Q) : Py.sum xs / Py.len xs == mean xs.
Proof.
  unfold Py.sum, Py.len, mean. rewrite fold_left_Qplus, Qplus_0_l. reflexivity.
Qed.

Lemma frame_body_window fps height f st self self' st' :
  (List.length (elbow_y_buffer st) <= 5)%nat ->
  frame_body fps height f st self = (self', inr st') ->
  elbow_y_buffer st' =
    lastn 5 (elbow_y_buffer st ++ elbow_samples height [f]) /\
  (List.length (elbow_y_buffer st') <= 5)%nat.
Proof.
  intros Hlen H. apply frame_body_inv in H. destruct H as (_ & _ & _ & H).
  unfold elbow_samples. simpl. destruct (pose_landmarks f) as [lm|].
  - destruct H as (_ & _ & Hw). rewrite Hw. unfold window_of. simpl.
    split; [apply deque_append_lastn|apply deque_append_length]; exact Hlen.
  - destruct H as (_ & _ & _ & _ & _ & Hw). rewrite Hw, app_nil_r.
    split; [symmetry; apply lastn_all|]; exact Hlen.
Qed.

Lemma frame_loop_window fps height fs st self self' st' :
  (List.length (elbow_y_buffer st) <= 5)%nat ->
  frame_loop fps height fs st self = (self', inr st') ->
  elbow_y_buffer st' = lastn 5 (elbow_y_buffer st ++ elbow_samples height fs) /\
  (List.length (elbow_y_buffer st') <= 5)%nat.
Proof.
  revert st self. induction fs as [|f fs IH]; intros st self Hlen H.
  - inversion H; subst. unfold elbow_samples. simpl. rewrite app_nil_r.
    split; [symmetry; apply lastn_all|]; exact Hlen.
  - simpl in H. unfold bind in H.
    destruct (frame_body fps height f st self) as [self1 [e|st1]] eqn:Hf;
      [discriminate|].
    destruct (frame_body_window _ _ _ _ _ _ _ Hlen Hf) as [Hw1 Hlen1].
    destruct (IH _ _ Hlen1 H) as [Hw Hlen'].
    split; [|exact Hlen'].
    rewrite Hw, Hw1, lastn_app_lastn, <- app_assoc.
    unfold elbow_samples. simpl. now rewrite app_nil_r.
Qed.

(** C8.  After any frames of a run the window holds the last five elbow
    samples seen so far, oldest first, and so never more than five.  On
    the next frame: with a pose, the sample is added on the right and only
    the last five are kept, and the smoothed value handed to the rep state
    machine is the arithmetic mean of exactly the samples then in the
    window (also when there are fewer than five); without a pose, the
    window is left as it was and the rep state machine does not run. *)
Theorem smoothing_window (w : World) (self self1 : Analyzer)
    (fs : list Frame) (st1 : Locals) :
  run_frames w fs self = (self1, inr st1) ->
  elbow_y_buffer st1 = lastn 5 (elbow_samples (height_of w) fs) /\
  (List.length (elbow_y_buffer st1) <= 5)%nat /\
  forall f self2 st2,
    frame_body (fps_of w) (height_of w) f st1 self1 = (self2, inr st2) ->
    match pose_landmarks f with
    | Some lm =>
        elbow_y_buffer st2 =
          lastn 5 (elbow_y_buffer st1 ++ [elbow_of (height_of w) lm]) /\
        exists m,
          smooth (elbow_y_buffer st1) (elbow_of (height_of w) lm)
            = inr (elbow_y_buffer st2, m) /\
          m == mean (elbow_y_buffer st2) /\
          shallow_rep_detection (bench_of f) (bar_of f) (hip_of (height_of w) lm)
            (shoulder_of (height_of w) lm) m (shallow_rep_status st1) self1
            = (self2, inr (shallow_rep_status st2))
    | None =>
        elbow_y_buffer st2 = elbow_y_buffer st1 /\
        self2 = self1 /\
        shallow_rep_status st2 = shallow_rep_status st1
    end.
Proof.
  intros H. unfold run_frames in H.
  apply frame_loop_window in H; [|simpl; lia].
  destruct H as [Hw Hlen]. simpl in Hw.
  split; [exact Hw|]. split; [exact Hlen|].
  intros f self2 st2 Hf. apply frame_body_inv in Hf.
  destruct Hf as (_ & _ & _ & Hf).
  destruct (pose_landmarks f) as [lm|].
  - destruct Hf as (_ & Hs & Hbuf). split.
    + rewrite Hbuf. apply deque_append_lastn. exact Hlen.
    + exists (smoothed_of (height_of w) lm st1). split; [|split].
      * rewrite smooth_ok, Hbuf. reflexivity.
      * rewrite Hbuf. apply sum_len_mean.
      * exact Hs.
  - tauto.
Qed.

(** Six samples: the first one has left the window. *)
Lemma smoothing_window_witness :
  let fs := [Sample.elbows 0.1; Sample.elbows 0.2; Sample.elbows 0.3;
             Sample.blank; Sample.elbows 0.4; Sample.elbows 0.5;
             Sample.elbows 0.6] in
  let st := Sample.locals_of (run_frames (Sample.world 30 fs) fs __init__) in
  elbow_y_buffer st
  = [elbow_of 1000 (Sample.pose 0.5 0.2 0.3); elbow_of 1000 (Sample.pose 0.5 0.3 0.3);
     elbow_of 1000 (Sample.pose 0.5 0.4 0.3); elbow_of 1000 (Sample.pose 0.5 0.5 0.3);
     elbow_of 1000 (Sample.pose 0.5 0.6 0.3)].
Proof.
  intros fs st.
  pose (r := run_frames (Sample.world 30 fs) fs __init__).
  assert (H : run_frames (Sample.world 30 fs) fs __init__
              = (fst r, inr (Sample.locals_of r)))
    by (vm_compute; reflexivity).
  destruct (smoothing_window _ _ _ _ _ H) as (Hw & _).
  exact Hw.
Defined.

(* ------------------------------------------------------------------ *)
(** ** The time series *)

Lemma float_or_none_none_iff (x : Q) :
  float_or_none (Some x) = None <-> x == 0.
Proof.
  unfold float_or_none, Py.truthy_opt. rewrite <- truthy_false_iff.
  destruct (Py.truthy x); split; intro H; congruence.
Qed.

Lemma float_or_none_some (x : Q) (y : Q) :
  float_or_none (Some x) = Some y -> y = x /\ ~ x == 0.
Proof.
  unfold float_or_none, Py.truthy_opt. rewrite <- truthy_false_iff.
  destruct (Py.truthy x); intro H; inversion H. split; congruence.
Qed.

(** C10.  Every completed frame appends one record.  Without a pose its
    three coordinates are null.  With a pose, a coordinate is null exactly
    when its computed value equals zero, and otherwise it is the computed
    value.  So a null coordinate does not tell that the landmark was
    absent: there is a frame with a pose whose record has a null hip
    coordinate. *)
Theorem null_coordinate_not_absence :
  (forall fps height f st self self' st',
      frame_body fps height f st self = (self', inr st') ->
      exists row,
        time_series_data st' = time_series_data st ++ [row] /\
        match pose_landmarks f with
        | None => hip_y row = None /\ elbow_y row = None /\ shoulder_y row = None
        | Some lm =>
            (hip_y row = None <-> hip_of height lm == 0) /\
            (elbow_y row = None <-> elbow_of height lm == 0) /\
            (shoulder_y row = None <-> shoulder_of height lm == 0) /\
            (forall y, hip_y row = Some y -> y = hip_of height lm) /\
            (forall y, elbow_y row = Some y -> y = elbow_of height lm) /\
            (forall y, shoulder_y row = Some y -> y = shoulder_of height lm)
        end) /\
  (exists fps height f lm st self self' st' row,
      pose_landmarks f = Some lm /\
      frame_body fps height f st self = (self', inr st') /\
      time_series_data st' = time_series_data st ++ [row] /\
      hip_y row = None).
Proof.
  split.
  - intros fps height f st self self' st' H.
    apply frame_body_inv in H. destruct H as (_ & _ & Hts & _).
    exists (row_of fps height f (frame_idx st + 1)). split; [exact Hts|].
    unfold row_of, coords_of. destruct (pose_landmarks f) as [lm|]; simpl.
    + repeat split; try (apply float_or_none_none_iff);
        intros y Hy; apply float_or_none_some in Hy; tauto.
    + auto.
  - pose (f := Sample.shot [] (Some (Sample.pose 0 0.7 0.3))).
    pose (r := frame_body 30 1000 f init_locals __init__).
    exists 30%Z, 1000%Z, f, (Sample.pose 0 0.7 0.3), init_locals, __init__,
      (fst r), (Sample.locals_of r), (row_of 30 1000 f 1).
    split; [reflexivity|]. split; [vm_compute; reflexivity|].
    split; [vm_compute; reflexivity|]. reflexivity.
Qed.

(** A frame whose hips are at height 0 is recorded with a null hip
    coordinate although the pose was there. *)
Lemma null_coordinate_not_absence_witness :
  let f := Sample.shot [] (Some (Sample.pose 0 0.7 0.3)) in
  let r := frame_body 30 1000 f init_locals __init__ in
  exists row,
    time_series_data (Sample.locals_of r) = [row] /\
    hip_y row = None /\ elbow_y row <> None.
Proof.
  intros f r.
  assert (H : frame_body 30 1000 f init_locals __init__
              = (fst r, inr (Sample.locals_of r)))
    by (vm_compute; reflexivity).
  destruct (proj1 null_coordinate_not_absence _ _ _ _ _ _ _ H)
    as (row & Hts & Hh & He & _).
  exists row. split; [exact Hts|]. split.
  - apply Hh. vm_compute. reflexivity.
  - intros Hn. apply He in Hn. vm_compute in Hn. discriminate Hn.
Defined.

(* ------------------------------------------------------------------ *)
(** ** The tracker across calls *)

(** C9.  The tracker attributes get their sentinel values in the
    constructor, and a call whose checks pass runs its frame loop from
    fresh locals but from the attributes as the previous call left them.
    So there is a video that ends inside a rep for which a second call on
    the same analyzer differs from the call on a fresh one: on the first
    frame the fresh analyzer starts a rep where the used one ends one, and
    the fresh call reports no shallow rep and GOOD REP where the second
    call reports a shallow rep and EGO LIFT. *)
Theorem tracker_survives_calls :
  (is_in_rep __init__ = false /\
   min_bar_shoulder_dist __init__ = 1000 /\
   min_elbow_y_at_bottom __init__ = 2000) /\
  (forall w self,
      ready w ->
      analyze_video w self =
      match frame_loop (fps_of w) (height_of w) (frames (cap w)) init_locals self with
      | (self', inl e) => (self', inl e)
      | (self', inr st) => (self', make_results (total_frames_of w) (fps_of w) st)
      end) /\
  (exists w f fs lm bar a1 res1 a2 res2,
      ready w /\
      frames (cap w) = f :: fs /\
      pose_landmarks f = Some lm /\ bar_of f = Some bar /\
      analyze_video w __init__ = (a1, inr res1) /\
      is_in_rep a1 = true /\
      analyze_video w a1 = (a2, inr res2) /\
      (let d := Qabs (box_bottom bar - shoulder_of (height_of w) lm) in
       rep_start_test __init__ d = true /\ rep_end_test a1 d = true) /\
      r_shallow_rep_status res1 = STATUS_OK /\
      r_shallow_rep_status res2 = STATUS_FAIL_SHALLOW /\
      r_overall_status res1 = STATUS_GOOD_REP /\
      r_overall_status res2 = STATUS_EGO_LIFT).
Proof.
  split; [repeat split|]. split; [exact analyze_video_ready|].
  pose (w := Sample.world 30 [Sample.bar_high; Sample.bar_low]).
  pose (r1 := analyze_video w __init__).
  pose (r2 := analyze_video w (fst r1)).
  exists w, Sample.bar_high, [Sample.bar_low], (Sample.pose 0.5 0.7 0.3),
    (100, 0, 500, 500)%Z, (fst r1).
  exists (Sample.result_of r1), (fst r2), (Sample.result_of r2).
  split; [repeat split|]. split; [reflexivity|]. split; [reflexivity|].
  split; [vm_compute; reflexivity|]. split; [vm_compute; reflexivity|].
  split; [vm_compute; reflexivity|]. split; [vm_compute; reflexivity|].
  split; [split; vm_compute; reflexivity|].
  repeat split; vm_compute; reflexivity.
Qed.

(** A second call on an analyzer left inside a rep still starts from that
    rep. *)
Lemma tracker_survives_calls_witness :
  let w := Sample.world 30 [Sample.bar_high; Sample.bar_low] in
  let a1 := fst (analyze_video w __init__) in
  is_in_rep a1 = true /\
  analyze_video w a1 =
  match frame_loop 30 1000 [Sample.bar_high; Sample.bar_low] init_locals a1 with
  | (self', inl e) => (self', inl e)
  | (self', inr st) => (self', make_results 2 30 st)
  end.
Proof.
  intros w a1. split; [vm_compute; reflexivity|].
  assert (Hr : ready w) by (repeat split).
  exact (proj1 (proj2 tracker_survives_calls) w a1 Hr).
Defined.

(* ------------------------------------------------------------------ *)
(** ** A frame rate of zero *)

(** The duration is guarded: [total_frames / fps] for a positive frame
    rate and 0 otherwise, and it never raises. *)
Lemma video_duration_spec (total fps : Z) :
  ((0 < fps)%Z -> video_duration total fps = inr (inject_Z total / inject_Z fps)) /\
  ((fps <= 0)%Z -> video_duration total fps = inr 0).
Proof.
  unfold video_duration. split; intros H.
  - destruct (Z.gtb_spec fps 0); [|lia].
    apply truediv_ok. rewrite inject_Z_zero_iff. lia.
  - destruct (Z.gtb_spec fps 0); [lia|reflexivity].
Qed.

(** The timestamp is not guarded: with a frame rate of zero the first
    frame of a run raises, whatever it contains. *)
Lemma frame_body_fps_zero height f st self :
  baseline_paired st ->
  exists self', frame_body 0 height f st self = (self', inl Py.ZeroDivisionError).
Proof.
  intros Hpair. destruct (pose_landmarks f) as [lm|] eqn:Hp.
  - destruct (hip_lift_detection_total (bench_of f) (hip_of height lm)
                (baseline_hip_bench_dist st) (dynamic_hip_threshold st)
                (hip_lift_status st) Hpair) as (b & t & hs & Hh & _).
    destruct (shallow_rep_detection_total (bench_of f) (bar_of f)
                (hip_of height lm) (shoulder_of height lm)
                (smoothed_of height lm st) (shallow_rep_status st) self)
      as (s1 & ss & Hs & _).
    rewrite (frame_body_pose _ _ _ _ _ _ _ _ _ _ _ Hp Hh Hs).
    rewrite store_row_raises by reflexivity. eauto.
  - rewrite (frame_body_no_pose _ _ _ _ _ Hp).
    rewrite store_row_raises by reflexivity. eauto.
Qed.

Lemma fps_zero_raises (w : World) (self : Analyzer) :
  ready w -> fps_of w = 0%Z -> frames (cap w) <> [] ->
  snd (analyze_video w self) = inl Py.ZeroDivisionError.
Proof.
  intros Hr Hfps Hne. rewrite (analyze_video_ready _ _ Hr). unfold run_frames.
  destruct (frames (cap w)) as [|f fs]; [congruence|].
  simpl. unfold bind. rewrite Hfps.
  destruct (frame_body_fps_zero (height_of w) f init_locals self init_locals_paired)
    as (self' & Hf).
  rewrite Hf. reflexivity.
Qed.

Lemma fps_zero_empty_video (w : World) (self : Analyzer) :
  ready w -> fps_of w = 0%Z -> frames (cap w) = [] ->
  exists res,
    analyze_video w self = (self, inr res) /\ r_video_duration res = 0.
Proof.
  intros Hr Hfps Hfs. rewrite (analyze_video_ready _ _ Hr). unfold run_frames.
  rewrite Hfs, Hfps. simpl. unfold ret, make_results. simpl. eauto.
Qed.

(** C1.  A readable one-frame video whose frame rate reads as zero: the
    guarded duration would be 0, but the call does not get that far; it
    raises [ZeroDivisionError] when it computes the timestamp of the
    first frame. *)
Theorem fps_zero_first_timestamp_raises :
  let w := Sample.world 0 [Sample.hip_calm] in
  ready w /\
  fps_of w = 0%Z /\
  video_duration (total_frames_of w) (fps_of w) = inr 0 /\
  snd (analyze_video w __init__) = inl Py.ZeroDivisionError.
Proof.
  intros w.
  assert (Hr : ready w) by (repeat split).
  assert (Hfps : fps_of w = 0%Z) by reflexivity.
  split; [exact Hr|]. split; [exact Hfps|]. split; [reflexivity|].
  apply fps_zero_raises; [exact Hr|exact Hfps|discriminate].
Qed.

(* ------------------------------------------------------------------ *)
(** ** Torso length *)

(** Where both coordinates are present and not zero the source computes
    the distance between them. *)
Lemma avg_torso_length_nonzero (s h : Q) :
  ~ s == 0 -> ~ h == 0 ->
  avg_torso_length (Some s) (Some h) = torso_length_spec (Some s) (Some h).
Proof.
  intros Hs Hh. unfold avg_torso_length, torso_length_spec.
  destruct (Py.truthy s) eqn:Es; [|apply truthy_false_iff in Es; contradiction].
  destruct (Py.truthy h) eqn:Eh; [|apply truthy_false_iff in Eh; contradiction].
  reflexivity.
Qed.

(** A present coordinate that equals zero takes the fallback. *)
Lemma avg_torso_length_zero (s h : Q) :
  s == 0 \/ h == 0 -> avg_torso_length (Some s) (Some h) = 100.
Proof.
  intros [H|H]; apply truthy_false_iff in H; unfold avg_torso_length; rewrite H.
  - reflexivity.
  - now rewrite andb_false_r.
Qed.

(** C6.  With the shoulders on the top edge of the image (coordinate 0)
    and the hips at 50, both coordinates are present, yet the torso
    length is the fallback 100 and not the distance 50, and the threshold
    is 5 and not 2.5.  In the two-frame video a rep starts with the elbows
    at 604 and ends over a bench top at 600: the run reports no shallow
    rep, where the threshold taken from the distance judges it shallow. *)
Theorem torso_fallback_on_zero_coordinate :
  let s := shoulder_of 1000 Sample.top_edge in
  let h := hip_of 1000 Sample.top_edge in
  let w := Sample.world 30 [Sample.top_edge_down; Sample.top_edge_up] in
  (s == 0 /\ h == 50) /\
  avg_torso_length (Some s) (Some h) = 100 /\
  torso_length_spec (Some s) (Some h) == 50 /\
  dynamic_shallow_threshold (Some s) (Some h) == 5 /\
  is_in_rep (fst (run_frames w [Sample.top_edge_down] __init__)) = true /\
  is_in_rep (fst (analyze_video w __init__)) = false /\
  r_shallow_rep_status (Sample.result_of (analyze_video w __init__)) = STATUS_OK /\
  judge (bench_of Sample.top_edge_up)
        (torso_length_spec (Some s) (Some h) * SHALLOW_REP_RATIO)
        (fst (run_frames w [Sample.top_edge_down] __init__)) STATUS_OK
  = STATUS_FAIL_SHALLOW.
Proof.
  intros s h w.
  split; [split; vm_compute; reflexivity|].
  split; [apply avg_torso_length_zero; left; vm_compute; reflexivity|].
  repeat split; vm_compute; reflexivity.
Qed.


(* ------------------------------------------------------------------ *)
(** ** Outcomes of a call *)


Lemma not_ready_raises w self :
  ~ ready w ->
  exists e, analyze_video w self = (self, inl e) /\ e <> Py.ZeroDivisionError /\
            e <> Py.TypeError.
Proof.
  intros Hn. unfold analyze_video, _load_models, bind, raise, ret, ready in *.
  destruct (input_video_exists w); simpl; [|eexists; split; [reflexivity|split; discriminate]].
  destruct (model_exists w); simpl; [|eexists; split; [reflexivity|split; discriminate]].
  destruct (isOpened (cap w)); simpl; [|eexists; split; [reflexivity|split; discriminate]].
  destruct (writer_isOpened w); simpl; [|eexists; split; [reflexivity|split; discriminate]].
  exfalso. apply Hn. auto.
Qed.

Lemma ready_dec w : {ready w} + {~ ready w}.
Proof.
  unfold ready.
  destruct (input_video_exists w), (model_exists w), (isOpened (cap w)),
    (writer_isOpened w); try (left; tauto); right; intros (H1 & H2 & H3 & H4);
    discriminate.
Qed.



(* ------------------------------------------------------------------ *)
(** ** The tracker over frames and calls *)

(** Whatever a frame does (it may raise), the analyzer afterwards is the
    one before or the one the rep state machine left. *)
Lemma frame_body_self fps height f st self self' r :
  frame_body fps height f st self = (self', r) ->
  self' = self \/
  exists lm bar ss,
    pose_landmarks f = Some lm /\ bar_of f = Some bar /\
    rep_state_machine (bench_of f)
      (Qabs (box_bottom bar - shoulder_of height lm))
      (smoothed_of height lm st)
      (dynamic_shallow_threshold (Some (shoulder_of height lm))
                                 (Some (hip_of height lm)))
      (shallow_rep_status st) self = (self', inr ss).
Proof.
  intros H. destruct (pose_landmarks f) as [lm|] eqn:Hp.
  - destruct (hip_lift_detection (bench_of f) (hip_of height lm)
                (baseline_hip_bench_dist st, dynamic_hip_threshold st,
                 hip_lift_status st)) as [e|[[b t] hs]] eqn:Hh.
    + rewrite (frame_body_pose_raises _ _ _ _ _ _ _ Hp Hh) in H.
      left. congruence.
    + destruct (shallow_rep_detection_total (bench_of f) (bar_of f)
                  (hip_of height lm) (shoulder_of height lm)
                  (smoothed_of height lm st) (shallow_rep_status st) self)
        as (s1 & ss & Hs & _).
      rewrite (frame_body_pose _ _ _ _ _ _ _ _ _ _ _ Hp Hh Hs) in H.
      assert (s1 = self') by congruence. subst s1.
      unfold shallow_rep_detection in Hs.
      destruct (bar_of f) as [bar|] eqn:Hbar.
      * right. exists lm, bar, ss. auto.
      * left. unfold ret in Hs. congruence.
  - rewrite (frame_body_no_pose _ _ _ _ _ Hp) in H. left. congruence.
Qed.

Lemma frame_loop_self (P : Analyzer -> Prop) fps height fs :
  (forall f st self self' r,
      In f fs -> P self -> frame_body fps height f st self = (self', r) -> P self') ->
  forall st self self' r,
    P self -> frame_loop fps height fs st self = (self', r) -> P self'.
Proof.
  induction fs as [|f fs IH]; intros Hstep st self self' r HP H.
  - unfold frame_loop, ret in H. congruence.
  - simpl in H. unfold bind in H.
    destruct (frame_body fps height f st self) as [self1 [e|st1]] eqn:Hf.
    + inversion H; subst. eapply Hstep; [now left|exact HP|exact Hf].
    + eapply IH; [| |exact H].
      * intros f0 s0 a0 a1 r0 Hin. apply Hstep. now right.
      * eapply Hstep; [now left|exact HP|exact Hf].
Qed.

Lemma analyze_video_self (P : Analyzer -> Prop) w :
  (forall f st self self' r,
      In f (frames (cap w)) -> P self ->
      frame_body (fps_of w) (height_of w) f st self = (self', r) -> P self') ->
  forall self self' r, P self -> analyze_video w self = (self', r) -> P self'.
Proof.
  intros Hstep self self' r HP H. destruct (ready_dec w) as [Hr|Hn].
  - rewrite (analyze_video_ready _ _ Hr) in H. unfold run_frames in H.
    destruct (frame_loop (fps_of w) (height_of w) (frames (cap w)) init_locals self)
      as [s1 o] eqn:Hl.
    assert (s1 = self') by (destruct o; congruence). subst s1.
    eapply frame_loop_self; [exact Hstep|exact HP|exact Hl].
  - destruct (not_ready_raises w self Hn) as (e & He & _).
    rewrite He in H. congruence.
Qed.

Lemma rep_state_machine_idle bench d e thr s self self' r :
  idle_is_reset self ->
  rep_state_machine bench d e thr s self = (self', r) ->
  idle_is_reset self'.
Proof.
  intros Hi H. rewrite rep_state_machine_eq in H.
  destruct (rep_start_test self d); [inversion H; subst; intros Hf; discriminate Hf|].
  destruct (rep_track_test self d) eqn:Et.
  - apply rep_track_test_iff in Et. destruct Et as [Hin _].
    inversion H; subst. unfold rep_tracked, idle_is_reset. simpl. congruence.
  - destruct (rep_end_test self d); inversion H; subst; [intros _; reflexivity|exact Hi].
Qed.

(** Outside a rep the tracker holds its sentinels after any calls. *)
Lemma calls_idle (ws : list World) : idle_is_reset (calls ws __init__).
Proof.
  unfold calls.
  assert (Hgen : forall a, idle_is_reset a ->
                   idle_is_reset (fold_left (fun a w => fst (analyze_video w a)) ws a)).
  { induction ws as [|w ws IH]; intros a Ha; simpl; [exact Ha|].
    apply IH. destruct (analyze_video w a) as [a' r] eqn:Hc. simpl.
    apply (analyze_video_self idle_is_reset w) with (self := a) (r := r); auto.
    intros f st s s' r0 _ Hs Hf. apply frame_body_self in Hf.
    destruct Hf as [->|(lm & bar & ss & _ & _ & Hm)]; [exact Hs|].
    eapply rep_state_machine_idle; eauto. }
  apply Hgen. intros _. reflexivity.
Qed.

(** X2.  Outside a rep the tracker always holds its sentinel values: this
    is so after the constructor and after any sequence of calls on one
    analyzer, whether they returned or raised.  Hence, when such an
    analyzer is outside a rep, the next call does exactly what it would do
    on a new analyzer. *)
Theorem idle_analyzer_is_fresh (ws : list World) :
  idle_is_reset (calls ws __init__) /\
  (is_in_rep (calls ws __init__) = false ->
   forall w, analyze_video w (calls ws __init__) = analyze_video w __init__).
Proof.
  split; [apply calls_idle|].
  intros Hidle w. now rewrite (calls_idle ws Hidle).
Qed.

(** A video whose rep ends before the video does leaves the analyzer
    outside a rep, and a second call on it equals a call on a new one. *)
Lemma idle_analyzer_is_fresh_witness :
  let w := Sample.world 30 [Sample.bar_high; Sample.bar_low; Sample.bar_high] in
  analyze_video w (calls [w] __init__) = analyze_video w __init__.
Proof.
  intros w.
  assert (Hidle : is_in_rep (calls [w] __init__) = false)
    by (vm_compute; reflexivity).
  exact (proj2 (idle_analyzer_is_fresh [w]) Hidle w).
Defined.

(** X3.  The tracker changes only on frames that have both a pose and a
    bar box: a call leaves the analyzer exactly as it found it when a
    check before the loop fails or when every frame lacks the pose or the
    bar box, whether the call returns or raises. *)
Theorem tracker_untouched (w : World) (self : Analyzer) :
  (~ ready w \/
   forall f, In f (frames (cap w)) -> pose_landmarks f = None \/ bar_of f = None) ->
  fst (analyze_video w self) = self.
Proof.
  intros [Hn|Hall].
  - destruct (not_ready_raises w self Hn) as (e & He & _). now rewrite He.
  - destruct (analyze_video w self) as [self' r] eqn:Hc. simpl.
    apply (analyze_video_self (fun a => a = self) w) with (self := self) (r := r);
      auto.
    intros f st s s' r0 Hin Hs Hf. subst s. apply frame_body_self in Hf.
    destruct Hf as [->|(lm & bar & ss & Hp & Hb & _)]; [reflexivity|].
    destruct (Hall f Hin); congruence.
Qed.

(** An analyzer inside a rep runs on a video with no bar box on any
    frame and is still inside the same rep. *)
Lemma tracker_untouched_witness :
  let self := {| is_in_rep := true; min_bar_shoulder_dist := 100;
                 min_elbow_y_at_bottom := 700 |} in
  fst (analyze_video (Sample.world 30 [Sample.hip_calm; Sample.blank; Sample.hip_lifted])
         self) = self.
Proof.
  intros self. apply tracker_untouched. right.
  intros f [<-|[<-|[<-|[]]]]; (left; reflexivity) || (right; vm_compute; reflexivity).
Defined.

(** X4.  The tracked minimum.  After a step of the rep state machine with
    bar-to-shoulder distance [d]: if the analyzer is then inside a rep,
    [min_bar_shoulder_dist] is at most [d]; if it was inside a rep before
    as well, the minimum has not grown; and whenever the step changed the
    minimum while staying inside a rep, the minimum is [d] and
    [min_elbow_y_at_bottom] is the smoothed elbow height of that frame. *)
Theorem tracked_minimum (bench : option IBox) (d e thr : Q) (s : string)
    (self : Analyzer) :
  let self' := fst (rep_state_machine bench d e thr s self) in
  (is_in_rep self' = true -> min_bar_shoulder_dist self' <= d) /\
  (is_in_rep self = true -> is_in_rep self' = true ->
   min_bar_shoulder_dist self' <= min_bar_shoulder_dist self) /\
  (is_in_rep self' = true -> self' <> self ->
   min_bar_shoulder_dist self' = d /\ min_elbow_y_at_bottom self' = e).
Proof.
  intros self'. subst self'. rewrite rep_state_machine_eq.
  destruct (rep_start_test self d) eqn:Es.
  - simpl. apply rep_start_test_iff in Es. destruct Es as [Hin _].
    split; [intros _; apply Qle_refl|]. split; [congruence|auto].
  - destruct (rep_track_test self d) eqn:Et.
    + simpl. apply rep_track_test_iff in Et. destruct Et as [Hin Hlt].
      split; [intros _; apply Qle_refl|].
      split; [intros _ _; apply Qlt_le_weak; exact Hlt|auto].
    + destruct (rep_end_test self d) eqn:Ee; simpl.
      * split; [discriminate|]. split; [intros _ H; discriminate H|].
        intros H; discriminate H.
      * split; [|split; [intros _ _; apply Qle_refl|congruence]].
        intros Hin. apply Qnot_lt_le. intros Hlt.
        assert (rep_track_test self d = true)
          by (apply rep_track_test_iff; auto).
        congruence.
Qed.

(** Inside a rep with minimum 200, a frame at distance 100 lowers the
    minimum to 100. *)
Lemma tracked_minimum_witness :
  let self := {| is_in_rep := true; min_bar_shoulder_dist := 200;
                 min_elbow_y_at_bottom := 700 |} in
  let self' := fst (rep_state_machine None 100 650 10 STATUS_OK self) in
  min_bar_shoulder_dist self' = 100 /\ min_elbow_y_at_bottom self' = 650.
Proof.
  intros self self'.
  destruct (tracked_minimum None 100 650 10 STATUS_OK self) as (_ & _ & H).
  apply H; [reflexivity|]. intros Heq. vm_compute in Heq. discriminate Heq.
Defined.

(** X5.  The shallow-rep status changes on a frame only through the
    end-and-judge rule: a completed frame after which the status differs
    has a pose, a bar box and a bench box, started inside a rep with the
    bar-to-shoulder distance more than 30 above the tracked minimum and
    with [min_elbow_y_at_bottom] above the bench top plus the threshold,
    and the new status is the FAIL value. *)
Theorem shallow_status_changes_only_at_rep_end (fps height : Z) (f : Frame)
    (st st' : Locals) (self self' : Analyzer) :
  frame_body fps height f st self = (self', inr st') ->
  shallow_rep_status st' <> shallow_rep_status st ->
  shallow_rep_status st' = STATUS_FAIL_SHALLOW /\
  exists lm bar bb,
    pose_landmarks f = Some lm /\ bar_of f = Some bar /\ bench_of f = Some bb /\
    is_in_rep self = true /\
    min_bar_shoulder_dist self + 30 < Qabs (box_bottom bar - shoulder_of height lm) /\
    box_top bb + dynamic_shallow_threshold (Some (shoulder_of height lm))
                                           (Some (hip_of height lm))
      < min_elbow_y_at_bottom self.
Proof.
  intros H Hne. pose proof (frame_body_inv _ _ _ _ _ _ _ H) as Hinv.
  destruct Hinv as (_ & _ & _ & Hinv).
  destruct (pose_landmarks f) as [lm|] eqn:Hp;
    [|destruct Hinv as (_ & _ & _ & _ & Hs & _); congruence].
  destruct Hinv as (_ & Hs & _). unfold shallow_rep_detection in Hs.
  destruct (bar_of f) as [bar|] eqn:Hbar; [|unfold ret in Hs; congruence].
  rewrite rep_state_machine_eq in Hs.
  destruct (rep_start_test self _); [congruence|].
  destruct (rep_track_test self _); [congruence|].
  destruct (rep_end_test self _) eqn:Ee; [|congruence].
  apply rep_end_test_iff in Ee. destruct Ee as [Hin Hd].
  inversion Hs as [[Hself Hss]]. unfold judge in Hss.
  destruct (bench_of f) as [bb|] eqn:Hb; [|congruence].
  destruct (Py.gt (min_elbow_y_at_bottom self) _) eqn:Eg; [|congruence].
  apply gt_iff in Eg. split; [congruence|].
  exists lm, bar, bb. auto 10.
Qed.

(** The end of the rep on the sample frame is such a frame. *)
Lemma shallow_status_changes_only_at_rep_end_witness :
  let self := {| is_in_rep := true; min_bar_shoulder_dist := 100;
                 min_elbow_y_at_bottom := 700 |} in
  let r := frame_body 30 1000 Sample.bar_high init_locals self in
  shallow_rep_status (Sample.locals_of r) = STATUS_FAIL_SHALLOW.
Proof.
  intros self r.
  assert (Hf : frame_body 30 1000 Sample.bar_high init_locals self
               = (fst r, inr (Sample.locals_of r)))
    by (vm_compute; reflexivity).
  assert (Hne : shallow_rep_status (Sample.locals_of r)
                <> shallow_rep_status init_locals)
    by (vm_compute; discriminate).
  exact (proj1 (shallow_status_changes_only_at_rep_end _ _ _ _ _ _ _ Hf Hne)).
Defined.

(* ------------------------------------------------------------------ *)
(** ** The result *)

Lemma frame_loop_statuses_valid fps height fs st self self' st' :
  statuses_valid st ->
  frame_loop fps height fs st self = (self', inr st') ->
  statuses_valid st'.
Proof.
  intros Hv H.
  apply (frame_loop_preserves (fun _ s => statuses_valid s) fps height fs)
    with (st := st) (self := self) (self' := self'); auto.
  intros f s a a' s' _ [Hh Hs] Hf. apply frame_body_sticky in Hf.
  destruct Hf as [Hh' Hs']. split.
  - destruct Hh' as [->| ->]; auto.
  - destruct Hs' as [->| ->]; auto.
Qed.

(** X6.  A returned result is consistent.  The hip-lift status is "OK"
    with [hip_lift_detected] false or "FAIL: HIP LIFT" with it true; the
    shallow-rep status is "OK" with [shallow_rep_detected] false or
    "FAIL: ELBOW DEPTH" with it true; and the overall status is
    "EGO LIFT" when at least one of the two was detected and "GOOD REP"
    when none was. *)
Theorem result_consistent (w : World) (self self' : Analyzer) (res : Result) :
  analyze_video w self = (self', inr res) ->
  ((r_hip_lift_status res = STATUS_OK /\ r_hip_lift_detected res = false) \/
   (r_hip_lift_status res = STATUS_FAIL_HIP /\ r_hip_lift_detected res = true)) /\
  ((r_shallow_rep_status res = STATUS_OK /\ r_shallow_rep_detected res = false) \/
   (r_shallow_rep_status res = STATUS_FAIL_SHALLOW /\
    r_shallow_rep_detected res = true)) /\
  r_overall_status res =
    (if r_hip_lift_detected res || r_shallow_rep_detected res
     then STATUS_EGO_LIFT else STATUS_GOOD_REP).
Proof.
  intros H. apply analyze_video_inv in H. destruct H as (st & Hl & Hres).
  unfold run_frames in Hl.
  assert (Hv : statuses_valid st).
  { eapply frame_loop_statuses_valid; [|exact Hl]. split; left; reflexivity. }
  apply make_results_inv in Hres.
  destruct Hres as (Ho & Hrh & Hrs & Hdh & Hds & _).
  rewrite Ho, Hrh, Hrs, Hdh, Hds. destruct Hv as [[Hh|Hh] [Hs|Hs]];
    rewrite Hh, Hs; repeat split; auto.
Qed.

(** The sample video with a hip lift. *)
Lemma result_consistent_witness :
  let w := Sample.world 30 [Sample.hip_calm; Sample.hip_lifted] in
  let res := Sample.result_of (analyze_video w __init__) in
  r_overall_status res = STATUS_EGO_LIFT /\ r_hip_lift_detected res = true.
Proof.
  intros w res.
  assert (H : analyze_video w __init__ = (fst (analyze_video w __init__), inr res))
    by (vm_compute; reflexivity).
  destruct (result_consistent _ _ _ _ H) as (_ & _ & Ho).
  split; [rewrite Ho|]; vm_compute; reflexivity.
Defined.

Lemma frame_loop_rows fps height fs st self self' st' :
  frame_loop fps height fs st self = (self', inr st') ->
  time_series_data st' =
    time_series_data st ++ rows_from fps height (frame_idx st + 1) fs /\
  frame_idx st' = (frame_idx st + Z.of_nat (List.length fs))%Z.
Proof.
  revert st self. induction fs as [|f fs IH]; intros st self H.
  - inversion H; subst. simpl. rewrite app_nil_r, Z.add_0_r. auto.
  - simpl in H. unfold bind in H.
    destruct (frame_body fps height f st self) as [self1 [e|st1]] eqn:Hf;
      [discriminate|].
    apply frame_body_inv in Hf. destruct Hf as (_ & Hidx & Hts & _).
    destruct (IH _ _ H) as [Hts' Hidx'].
    rewrite Hts', Hidx', Hts, Hidx, <- app_assoc.
    split; [reflexivity|].
    change (List.length (f :: fs)) with (S (List.length fs)).
    rewrite Nat2Z.inj_succ. lia.
Qed.

Lemma rows_from_length fps height idx fs :
  List.length (rows_from fps height idx fs) = List.length fs.
Proof.
  revert idx. induction fs as [|f fs IH]; intros idx; simpl; [reflexivity|].
  now rewrite IH.
Qed.

Lemma rows_from_nth fps height idx fs i row :
  nth_error (rows_from fps height idx fs) i = Some row ->
  exists f,
    nth_error fs i = Some f /\ row = row_of fps height f (idx + Z.of_nat i).
Proof.
  revert idx i. induction fs as [|f fs IH]; intros idx i H.
  - destruct i; discriminate.
  - destruct i as [|i]; simpl in H.
    + inversion H; subst. exists f. rewrite Z.add_0_r. auto.
    + destruct (IH _ _ H) as (g & Hg & Hrow). exists g. split; [exact Hg|].
      rewrite Hrow. f_equal. rewrite Nat2Z.inj_succ. lia.
Qed.

(** X7.  The time series of a returned result has exactly one record per
    frame read, in the order of the frames: the record at position [i]
    (from 0) belongs to frame [i], carries the frame number [i + 1] and
    the timestamp [(i + 1) / fps], and tells whether a bench box and a
    bar box were detected on that frame.  [total_frames] and [fps] are the
    values read from the capture. *)
Theorem time_series_one_row_per_frame (w : World) (self self' : Analyzer)
    (res : Result) :
  analyze_video w self = (self', inr res) ->
  List.length (r_time_series_data res) = List.length (frames (cap w)) /\
  r_total_frames res = total_frames_of w /\
  r_fps res = fps_of w /\
  forall i row,
    nth_error (r_time_series_data res) i = Some row ->
    exists f,
      nth_error (frames (cap w)) i = Some f /\
      frame row = (Z.of_nat i + 1)%Z /\
      timestamp row = inject_Z (Z.of_nat i + 1) / inject_Z (fps_of w) /\
      bench_detected row = Py.present (bench_of f) /\
      bar_detected row = Py.present (bar_of f).
Proof.
  intros H. apply analyze_video_inv in H. destruct H as (st & Hl & Hres).
  unfold run_frames in Hl. apply frame_loop_rows in Hl.
  destruct Hl as [Hts _]. simpl in Hts.
  pose proof (make_results_inv _ _ _ _ Hres) as (_ & _ & _ & _ & _ & Hr).
  unfold make_results in Hres.
  destruct (video_duration (total_frames_of w) (fps_of w)); [discriminate|].
  inversion Hres; subst res; clear Hres. simpl in *. rewrite Hts.
  split; [apply rows_from_length|]. split; [reflexivity|]. split; [reflexivity|].
  intros i row Hn. apply rows_from_nth in Hn. destruct Hn as (f & Hf & Hrow).
  exists f. split; [exact Hf|]. subst row.
  replace (1 + Z.of_nat i)%Z with (Z.of_nat i + 1)%Z by lia.
  unfold row_of. destruct (coords_of (height_of w) f) as [[h e] s]. simpl. auto.
Qed.

(** The second record of a three-frame video. *)
Lemma time_series_one_row_per_frame_witness :
  let w := Sample.world 30 [Sample.hip_calm; Sample.bare_calm; Sample.blank] in
  let res := Sample.result_of (analyze_video w __init__) in
  exists row,
    nth_error (r_time_series_data res) 1 = Some row /\
    frame row = 2%Z /\ bench_detected row = false.
Proof.
  intros w res.
  assert (H : analyze_video w __init__ = (fst (analyze_video w __init__), inr res))
    by (vm_compute; reflexivity).
  destruct (time_series_one_row_per_frame _ _ _ _ H) as (_ & _ & _ & Hrows).
  destruct (nth_error (r_time_series_data res) 1) as [row|] eqn:Hn;
    [|vm_compute in Hn; discriminate Hn].
  exists row. split; [reflexivity|].
  destruct (Hrows 1%nat row Hn) as (f & Hf & Hfr & _ & Hb & _).
  split; [exact Hfr|]. rewrite Hb. vm_compute in Hf. inversion Hf; subst f.
  vm_compute. reflexivity.
Defined.

(* ------------------------------------------------------------------ *)
(** ** Detection *)

Lemma find_snoc {A : Type} (p : A -> bool) (l : list A) (x : A) :
  find p (l ++ [x]) =
  match find p l with
  | Some y => Some y
  | None => if p x then Some x else None
  end.
Proof.
  induction l as [|a l IH]; simpl; [reflexivity|].
  destruct (p a); [reflexivity|exact IH].
Qed.

Lemma fold_detect_box (l : list Box) (acc : option IBox * option IBox) :
  fold_left detect_box l acc =
  (match find (qualifies 1) (rev l) with
   | Some b => Some (int_box b)
   | None => fst acc
   end,
   match find (qualifies 0) (rev l) with
   | Some b => Some (int_box b)
   | None => snd acc
   end).
Proof.
  revert acc. induction l as [|b l IH]; intros [bench bar]; [reflexivity|].
  simpl fold_left. rewrite IH. simpl rev. rewrite !find_snoc.
  unfold detect_box, qualifies.
  destruct (find _ (rev l)) as [b1|]; destruct (find _ (rev l)) as [b0|];
    destruct (Z.eqb_spec (cls b) 0) as [E0|E0];
    destruct (Z.eqb_spec (cls b) 1) as [E1|E1];
    try (exfalso; lia); simpl; destruct (Py.gt (conf b) 0.5); reflexivity.
Qed.

Lemma detect_concat (rs : list (list Box)) (acc : option IBox * option IBox) :
  fold_left (fun a r => fold_left detect_box r a) rs acc =
  fold_left detect_box (List.concat rs) acc.
Proof.
  revert acc. induction rs as [|r rs IH]; intros acc; simpl; [reflexivity|].
  now rewrite IH, fold_left_app.
Qed.

(** X8.  Detection per frame.  The bar box is the last box, over all
    detector results in order, with class 0 and confidence above 0.5, and
    the bench box the last one with class 1 and confidence above 0.5, each
    with its corners truncated to integers.  So a kind of box is missing
    exactly when no box of its class has confidence above 0.5 (a
    confidence of exactly 0.5 does not count). *)
Theorem detection_last_confident_box (f : Frame) :
  let boxes := List.concat (results f) in
  bar_of f = option_map int_box (find (qualifies 0) (rev boxes)) /\
  bench_of f = option_map int_box (find (qualifies 1) (rev boxes)) /\
  (bar_of f = None <->
   forall b, In b boxes -> (cls b = 0%Z -> conf b <= 0.5)) /\
  (bench_of f = None <->
   forall b, In b boxes -> (cls b = 1%Z -> conf b <= 0.5)).
Proof.
  intros boxes.
  assert (Hd : detect (results f) =
               (option_map int_box (find (qualifies 1) (rev boxes)),
                option_map int_box (find (qualifies 0) (rev boxes)))).
  { unfold detect. rewrite detect_concat, fold_detect_box. fold boxes.
    destruct (find (qualifies 1) (rev boxes)), (find (qualifies 0) (rev boxes));
      reflexivity. }
  assert (Hnone : forall c,
             option_map int_box (find (qualifies c) (rev boxes)) = None <->
             forall b, In b boxes -> (cls b = c -> conf b <= 0.5)).
  { intros c. split.
    - intros H b Hin Hc.
      destruct (find (qualifies c) (rev boxes)) as [b'|] eqn:Hf; [discriminate|].
      apply in_rev in Hin. pose proof (find_none _ _ Hf _ Hin) as Hq.
      unfold qualifies in Hq. rewrite Hc, Z.eqb_refl in Hq. simpl in Hq.
      now apply gt_false_iff.
    - intros H.
      destruct (find (qualifies c) (rev boxes)) as [b'|] eqn:Hf; [|reflexivity].
      apply find_some in Hf. destruct Hf as [Hin Hq].
      apply in_rev in Hin. unfold qualifies in Hq.
      apply andb_true_iff in Hq. destruct Hq as [Hc Hg].
      apply Z.eqb_eq in Hc. apply gt_iff in Hg.
      exfalso. exact (Qlt_not_le _ _ Hg (H b' Hin Hc)). }
  unfold bar_of, bench_of. rewrite Hd. simpl.
  split; [reflexivity|]. split; [reflexivity|]. split; apply Hnone.
Qed.

(* ------------------------------------------------------------------ *)
(** ** What raises the hip-lift flag *)

Lemma hip_lift_detection_calibrated bench hip b t s :
  hip_lift_detection bench hip (Some b, Some t, s) =
  inr (Some b, Some t,
       match bench with
       | Some bb =>
           if Py.gt (Qabs (hip - box_top bb)) (b + t) then STATUS_FAIL_HIP else s
       | None => s
       end).
Proof.
  unfold hip_lift_detection. destruct bench as [bb|]; [|reflexivity].
  destruct (Py.gt _ _); reflexivity.
Qed.

Lemma frame_body_hip_trigger fps height f st self self' st' b t :
  baseline_hip_bench_dist st = Some b ->
  dynamic_hip_threshold st = Some t ->
  frame_body fps height f st self = (self', inr st') ->
  baseline_hip_bench_dist st' = Some b /\
  dynamic_hip_threshold st' = Some t /\
  (hip_lift_status st' = STATUS_FAIL_HIP <->
   hip_lift_status st = STATUS_FAIL_HIP \/ hips_beyond height (b + t) f).
Proof.
  intros Hb Ht H. apply frame_body_inv in H. destruct H as (_ & _ & _ & H).
  unfold hips_beyond, hip_bench_dist.
  destruct (pose_landmarks f) as [lm|] eqn:Hp.
  - destruct H as (Hh & _). rewrite Hb, Ht, hip_lift_detection_calibrated in Hh.
    destruct (bench_of f) as [bb|] eqn:Hbench.
    + destruct (Py.gt (Qabs (hip_of height lm - box_top bb)) (b + t)) eqn:Eg;
        injection Hh as Hb' Ht' Hs'; rewrite <- Hb', <- Ht', <- Hs';
        (split; [reflexivity|]); (split; [reflexivity|]).
      * split; [intros _; right|reflexivity].
        exists lm, bb. apply gt_iff in Eg. auto.
      * split; [auto|]. intros [Hs|(lm' & bb' & Hl & Hbb & Hlt)]; [exact Hs|].
        assert (lm' = lm) by congruence. assert (bb' = bb) by congruence.
        subst lm' bb'. apply gt_iff in Hlt. congruence.
    + injection Hh as Hb' Ht' Hs'. rewrite <- Hb', <- Ht', <- Hs'.
      split; [reflexivity|]. split; [reflexivity|].
      split; [auto|]. intros [Hs|(lm' & bb' & _ & Hbb & _)]; [exact Hs|discriminate].
  - destruct H as (_ & Hb' & Ht' & Hs' & _). rewrite Hb', Ht', Hs'.
    split; [exact Hb|]. split; [exact Ht|]. split; [auto|].
    intros [Hs|(lm' & bb' & Hl & _)]; [exact Hs|discriminate].
Qed.

Lemma frame_loop_hip_trigger fps height fs st self self' st' b t :
  baseline_hip_bench_dist st = Some b ->
  dynamic_hip_threshold st = Some t ->
  frame_loop fps height fs st self = (self', inr st') ->
  (hip_lift_status st' = STATUS_FAIL_HIP <->
   hip_lift_status st = STATUS_FAIL_HIP \/
   exists g, In g fs /\ hips_beyond height (b + t) g).
Proof.
  revert st self. induction fs as [|f fs IH]; intros st self Hb Ht H.
  - inversion H; subst. split; [auto|]. intros [Hs|(g & [] & _)]. exact Hs.
  - simpl in H. unfold bind in H.
    destruct (frame_body fps height f st self) as [self1 [e|st1]] eqn:Hf;
      [discriminate|].
    destruct (frame_body_hip_trigger _ _ _ _ _ _ _ _ _ Hb Ht Hf)
      as (Hb1 & Ht1 & Hiff).
    rewrite (IH _ _ Hb1 Ht1 H), Hiff. split.
    + intros [[Hs|Hg]|(g & Hin & Hg)]; [auto| |].
      * right. exists f. split; [now left|exact Hg].
      * right. exists g. split; [now right|exact Hg].
    + intros [Hs|(g & [<-|Hin] & Hg)]; [auto|auto|].
      right. exists g. auto.
Qed.

(** X9.  What raises the hip-lift flag.  Let [f] be the first frame of
    the video with both a pose and a bench box, and [d] its hip-to-bench
    distance.  A returned result reports "FAIL: HIP LIFT" exactly when
    some later frame with a pose and a bench box has a hip-to-bench
    distance above [d + d * 0.5]. *)
Theorem hip_lift_trigger (w : World) (self self' : Analyzer) (res : Result)
    (pre post : list Frame) (f : Frame) (lm : Landmarks) (bb : IBox) :
  frames (cap w) = pre ++ f :: post ->
  (forall g, In g pre -> uncalibrating g) ->
  pose_landmarks f = Some lm ->
  bench_of f = Some bb ->
  analyze_video w self = (self', inr res) ->
  let d := hip_bench_dist (height_of w) lm bb in
  r_hip_lift_status res = STATUS_FAIL_HIP <->
  exists g, In g post /\ hips_beyond (height_of w) (d + d * 0.5) g.
Proof.
  intros Hfs Hpre Hp Hb H d.
  apply analyze_video_inv in H. destruct H as (st & Hl & Hres).
  apply make_results_inv in Hres. destruct Hres as (_ & Hrh & _). rewrite Hrh.
  unfold run_frames in Hl. rewrite Hfs, frame_loop_app in Hl.
  destruct (frame_loop (fps_of w) (height_of w) pre init_locals self)
    as [s1 [e|st1]] eqn:H1; [discriminate|].
  destruct (frame_loop_uncalibrated _ _ _ _ _ _ _ Hpre H1) as (Hb1 & _ & Hs1).
  simpl in Hb1, Hs1. simpl in Hl. unfold bind in Hl.
  destruct (frame_body (fps_of w) (height_of w) f st1 s1) as [s2 [e|st2]] eqn:Hf;
    [discriminate|].
  apply frame_body_inv in Hf. rewrite Hp in Hf.
  destruct Hf as (_ & _ & _ & Hh & _).
  rewrite Hb, Hb1, hip_lift_detection_calibrates in Hh.
  injection Hh as Hb2 Ht2 Hs2.
  rewrite (frame_loop_hip_trigger _ _ _ _ _ _ _ _ _ (eq_sym Hb2) (eq_sym Ht2) Hl).
  fold (hip_bench_dist (height_of w) lm bb). fold d.
  split; [|auto]. intros [Hs|Hg]; [|exact Hg].
  rewrite <- Hs2, Hs1 in Hs. discriminate Hs.
Qed.

(** Hips 100 from the bench on the first frame and 200 on the second. *)
Lemma hip_lift_trigger_witness :
  let w := Sample.world 30 [Sample.hip_calm; Sample.hip_lifted] in
  r_hip_lift_status (Sample.result_of (analyze_video w __init__)) = STATUS_FAIL_HIP.
Proof.
  intros w.
  assert (Hfs : frames (cap w) = [] ++ Sample.hip_calm :: [Sample.hip_lifted])
    by reflexivity.
  assert (Hpre : forall g, In g (@nil Frame) -> uncalibrating g) by (intros g []).
  assert (Hp : pose_landmarks Sample.hip_calm = Some (Sample.pose 0.5 0.7 0.3))
    by reflexivity.
  assert (Hb : bench_of Sample.hip_calm = Some (50, 600, 600, 900)%Z)
    by (vm_compute; reflexivity).
  assert (H : analyze_video w __init__
              = (fst (analyze_video w __init__),
                 inr (Sample.result_of (analyze_video w __init__))))
    by (vm_compute; reflexivity).
  apply (proj2 (hip_lift_trigger _ _ _ _ _ _ _ _ _ Hfs Hpre Hp Hb H)).
  exists Sample.hip_lifted. split; [now left|].
  exists (Sample.pose 0.4 0.7 0.3), (50, 600, 600, 900)%Z.
  split; [reflexivity|]. split; vm_compute; reflexivity.
Defined.

(* ------------------------------------------------------------------ *)
(** ** The smoothed value *)






(* ------------------------------------------------------------------ *)
(** ** Output paths *)

Lemma prefix_inv (a s : string) :
  String.prefix a s = true -> exists t, s = (a ++ t)%string.
Proof.
  revert s. induction a as [|c a IH]; intros s H.
  - exists s. reflexivity.
  - destruct s as [|c' s]; simpl in H; [discriminate|].
    destruct (Ascii.ascii_dec c c') as [->|]; [|discriminate].
    destruct (IH _ H) as (t & ->). exists t. reflexivity.
Qed.

Lemma replace_absent (old new s : string) :
  ~ occurs old s -> PyStr.replace old new s = s.
Proof.
  unfold PyStr.replace. induction s as [|c s IH]; intros Hn; [reflexivity|].
  cbn [PyStr.replace_from]. destruct (String.prefix old (String c s)) eqn:Hp.
  - exfalso. apply Hn. apply prefix_inv in Hp. destruct Hp as (t & Ht).
    exists EmptyString, t. exact Ht.
  - f_equal. apply IH. intros (pre & post & Hs). apply Hn.
    exists (String c pre), post. simpl. now rewrite Hs.
Qed.

Lemma append_empty_r (s : string) : (s ++ "")%string = s.
Proof. induction s as [|c s IH]; simpl; [reflexivity|now rewrite IH]. Qed.

Lemma replace_mp4_suffix (new stem : string) :
  ~ occurs ".mp4" stem ->
  PyStr.replace ".mp4" new (stem ++ ".mp4") = (stem ++ new)%string.
Proof.
  unfold PyStr.replace. induction stem as [|c t IH]; intros Hn.
  - simpl. now rewrite append_empty_r.
  - change ((String c t ++ ".mp4")%string) with (String c (t ++ ".mp4")).
    cbn [PyStr.replace_from].
    destruct (String.prefix ".mp4" (String c (t ++ ".mp4"))) eqn:Hp.
    + exfalso. apply prefix_inv in Hp. destruct Hp as (u & Hu).
      simpl in Hu. injection Hu as Hc Hu.
      destruct t as [|c1 [|c2 [|c3 t3]]]; simpl in Hu; try discriminate Hu.
      injection Hu as H1 H2 H3 Hu. subst. apply Hn.
      exists EmptyString, t3. reflexivity.
    + simpl. f_equal. apply IH. intros (pre & post & Hs). apply Hn.
      exists (String c pre), post. simpl. now rewrite Hs.
Qed.

(** X11.  An output path in which ".mp4" does not occur (another
    extension, or ".MP4") gives no separate paths: the temporary video and
    the JSON results file both get the very path of the output video. *)
Theorem paths_collide_without_mp4 (output_video_path : string) :
  ~ occurs ".mp4" output_video_path ->
  temp_output output_video_path = output_video_path /\
  json_output_path output_video_path = output_video_path.
Proof.
  intros H. unfold temp_output, json_output_path.
  split; apply replace_absent; exact H.
Qed.

(** An upper-case extension. *)
Lemma paths_collide_without_mp4_witness :
  json_output_path "/out/clip.MP4" = "/out/clip.MP4"%string.
Proof.
  apply paths_collide_without_mp4.
  intros (pre & post & Hs).
  repeat (destruct pre as [|? pre]; simpl in Hs; [discriminate Hs|];
          injection Hs as ? Hs; subst).
  destruct pre; discriminate Hs.
Defined.

(** X12.  For an output path that ends in ".mp4" and has no other
    occurrence of it, the temporary video is the path with "_temp" put
    before the extension and the JSON results file is the path with the
    extension changed to ".json". *)
Theorem paths_of_mp4_output (stem : string) :
  ~ occurs ".mp4" stem ->
  temp_output (stem ++ ".mp4") = (stem ++ "_temp.mp4")%string /\
  json_output_path (stem ++ ".mp4") = (stem ++ ".json")%string.
Proof.
  intros H. unfold temp_output, json_output_path.
  split; apply replace_mp4_suffix; exact H.
Qed.

Lemma paths_of_mp4_output_witness :
  json_output_path "/out/clip.mp4" = "/out/clip.json"%string.
Proof.
  apply (paths_of_mp4_output "/out/clip").
  intros (pre & post & Hs).
  repeat (destruct pre as [|? pre]; simpl in Hs; [discriminate Hs|];
          injection Hs as ? Hs; subst).
  destruct pre; discriminate Hs.
Defined.

(* ------------------------------------------------------------------ *)
(** ** Deleting the files of a video *)

Lemma mem_iff (q : string) (l : list string) :
  existsb (String.eqb q) l = true <-> In q l.
Proof.
  rewrite existsb_exists. split.
  - intros (x & Hin & Heq). apply String.eqb_eq in Heq. now subst.
  - intros H. exists q. split; [exact H|apply String.eqb_refl].
Qed.

Lemma path_exists_remove (fs : Main.Files) (p q : string) :
  Main.path_exists (Main.os_remove fs p) q =
  Main.path_exists fs q && negb (String.eqb q p).
Proof.
  unfold Main.path_exists, Main.os_remove.
  induction fs as [|a fs IH]; simpl; [reflexivity|].
  destruct (String.eqb_spec p a) as [Hpa|Hpa]; simpl; rewrite IH;
    destruct (String.eqb_spec q a) as [Hqa|Hqa]; simpl; try reflexivity.
  - destruct (String.eqb_spec q p); [now rewrite andb_false_r|congruence].
  - destruct (String.eqb_spec q p); [congruence|reflexivity].
Qed.

(** One guarded removal: what [try_remove] does to a path that exists. *)
Lemma try_remove_spec re p fs0 st :
  tracks fs0 st ->
  Main.path_exists (Main.files st) p = true ->
  let st' := Main.try_remove re p st in
  tracks fs0 st' /\
  (List.length (Main.failed st) <= List.length (Main.failed st'))%nat /\
  (forall q, Main.path_exists (Main.files st') q = true ->
             Main.path_exists (Main.files st) q = true) /\
  (forall q, In q (Main.deleted st') -> In q (Main.deleted st) \/ q = p) /\
  (forall q, In q (Main.deleted st) -> In q (Main.deleted st')) /\
  (List.length (Main.failed st') = List.length (Main.failed st) ->
   Main.path_exists (Main.files st') p = false).
Proof.
  intros (Hf & Hnd & Hex) Hp st'. subst st'. unfold Main.try_remove.
  destruct (re p) as [e|]; unfold tracks;
    cbn [Main.files Main.deleted Main.failed].
  - split; [repeat split; assumption|]. rewrite length_app. simpl.
    split; [lia|]. split; [auto|]. split; [auto|]. split; [auto|]. lia.
  - assert (Hnot : ~ In p (Main.deleted st)).
    { intros Hin. apply mem_iff in Hin. rewrite Hf, Hin in Hp.
      now rewrite andb_false_r in Hp. }
    split; [|split; [lia|]].
    + split; [|split].
      * intros q. rewrite path_exists_remove, Hf, existsb_app. simpl.
        rewrite orb_false_r, negb_orb, andb_assoc. reflexivity.
      * apply NoDup_app; [exact Hnd|repeat constructor; intros []|].
        intros x Hx [<-|[]]. contradiction.
      * intros q Hq. apply in_app_or in Hq. destruct Hq as [Hq|[<-|[]]]; [auto|].
        rewrite Hf in Hp. apply andb_true_iff in Hp. tauto.
    + split; [intros q; rewrite path_exists_remove, andb_true_iff; tauto|].
      split; [intros q Hq; apply in_app_or in Hq;
              destruct Hq as [Hq|[Hq|[]]]; auto|].
      split; [intros q Hq; apply in_or_app; now left|].
      intros _. rewrite path_exists_remove, String.eqb_refl. apply andb_false_r.
Qed.

Lemma step_facts_refl fs0 target cands st :
  tracks fs0 st ->
  (forall p, target = Some p -> PyStr.truthy target = true ->
             Main.path_exists (Main.files st) p = false) ->
  step_facts fs0 target cands st st.
Proof. intros Ht Hp. unfold step_facts. auto 10. Qed.

Lemma delete_original_spec re orig fs0 st :
  tracks fs0 st ->
  step_facts fs0 orig (fun q => orig = Some q) st (Main.delete_original re orig st).
Proof.
  intros Ht. unfold Main.delete_original. destruct orig as [p|].
  - destruct (PyStr.truthy (Some p)) eqn:Etr;
      [|apply step_facts_refl; [exact Ht|congruence]].
    destruct (Main.path_exists (Main.files st) p) eqn:Ep; simpl.
    + destruct (try_remove_spec re p fs0 st Ht Ep) as (H1 & H2 & H3 & H4 & H5 & H6).
      unfold step_facts. split; [exact H1|]. split; [exact H2|].
      split; [exact H3|]. split; [|split; [exact H5|]].
      * intros q Hq. destruct (H4 q Hq) as [ | -> ]; auto.
      * intros Hlen p' Hp' _. injection Hp' as <-. auto.
    + apply step_facts_refl; [exact Ht|]. intros p' Hp' _. injection Hp' as <-. exact Ep.
  - apply step_facts_refl; [exact Ht|discriminate].
Qed.

Lemma delete_processed_spec re proc fs0 st :
  tracks fs0 st ->
  step_facts fs0 proc
    (fun q => proc = Some q \/ exists p, proc = Some p /\ q = json_path p)
    st (Main.delete_processed re proc st).
Proof.
  intros Ht. unfold Main.delete_processed. destruct proc as [p|].
  - destruct (PyStr.truthy (Some p)) eqn:Etr;
      [|apply step_facts_refl; [exact Ht|congruence]].
    destruct (Main.path_exists (Main.files st) p) eqn:Ep; simpl.
    + destruct (try_remove_spec re p fs0 st Ht Ep) as (H1 & H2 & H3 & H4 & H5 & H6).
      fold (json_path p).
      destruct (Main.path_exists (Main.files (Main.try_remove re p st)) (json_path p))
        eqn:Ej.
      * destruct (try_remove_spec re (json_path p) fs0 _ H1 Ej)
          as (J1 & J2 & J3 & J4 & J5 & J6).
        unfold step_facts. split; [exact J1|]. split; [lia|].
        split; [auto|]. split; [|split; [auto|]].
        -- intros q Hq. destruct (J4 q Hq) as [Hq' | -> ].
           ++ destruct (H4 q Hq') as [ | -> ]; auto.
           ++ right. right. exists p. auto.
        -- intros Hlen p' Hp' _. injection Hp' as <-.
           destruct (Main.path_exists
                       (Main.files (Main.try_remove re (json_path p)
                                      (Main.try_remove re p st))) p) eqn:E;
             [|reflexivity].
           apply J3 in E. rewrite H6 in E; [discriminate|lia].
      * unfold step_facts. split; [exact H1|]. split; [exact H2|].
        split; [exact H3|]. split; [|split; [exact H5|]].
        -- intros q Hq. destruct (H4 q Hq) as [ | -> ]; auto.
        -- intros Hlen p' Hp' _. injection Hp' as <-. auto.
    + apply step_facts_refl; [exact Ht|]. intros p' Hp' _. injection Hp' as <-. exact Ep.
  - apply step_facts_refl; [exact Ht|discriminate].
Qed.

Lemma tracks_start (fs : Main.Files) :
  tracks fs {| Main.files := fs; Main.deleted := []; Main.failed := [] |}.
Proof.
  unfold tracks. simpl. split; [intros q; now rewrite andb_true_r|].
  split; [constructor|intros q []].
Qed.


(** X14.  A processed path that is not given, is empty, or names no
    existing file is treated as if it were not given at all: only the
    original can be deleted, and a JSON analysis file belonging to that
    processed path is left in place. *)
Theorem processed_gone_json_stays (re : string -> option string) (vid : string)
    (original_path processed_path : option string) (fs : Main.Files) :
  (PyStr.truthy processed_path = false \/
   exists p, processed_path = Some p /\ Main.path_exists fs p = false) ->
  Main.delete_video_files re vid original_path processed_path fs =
  Main.delete_video_files re vid original_path None fs.
Proof.
  intros H. unfold Main.delete_video_files.
  set (st0 := {| Main.files := fs; Main.deleted := []; Main.failed := [] |}).
  set (st1 := Main.delete_original re original_path st0).
  assert (Hskip : Main.delete_processed re processed_path st1 = st1).
  { unfold Main.delete_processed. destruct processed_path as [p|]; [|reflexivity].
    destruct H as [H|(p' & Hp' & Hex)].
    - now rewrite H.
    - injection Hp' as <-.
      destruct (delete_original_spec re original_path fs st0 (tracks_start fs))
        as (_ & _ & Hmono & _).
      fold st1 in Hmono.
      destruct (Main.path_exists (Main.files st1) p) eqn:E.
      + apply Hmono in E. simpl in E. congruence.
      + now rewrite andb_false_r. }
  rewrite Hskip. reflexivity.
Qed.

(** The processed video is already gone; its JSON file stays. *)
Lemma processed_gone_json_stays_witness :
  Main.path_exists
    (fst (Main.delete_video_files (fun _ => None) "v1"%string
            (Some "/s/a.mp4"%string) (Some "/s/a_processed.mp4"%string)
            ["/s/a.mp4"%string; "/s/a_processed.json"%string]))
    "/s/a_processed.json"%string = true.
Proof.
  rewrite processed_gone_json_stays;
    [reflexivity|right; eexists; split; reflexivity].
Defined.

(** X15.  Deleting is idempotent after a success: when a call reports
    success, a second call with the same paths on the files it left
    deletes nothing, reports no error and leaves the files as they are,
    whatever the removals would do. *)
Theorem delete_twice (re re2 : string -> option string) (vid : string)
    (original_path processed_path : option string) (fs : Main.Files) :
  let fs' := fst (Main.delete_video_files re vid original_path processed_path fs) in
  let r := snd (Main.delete_video_files re vid original_path processed_path fs) in
  Main.success r = true ->
  Main.delete_video_files re2 vid original_path processed_path fs' =
  (fs', {| Main.video_id := vid; Main.deleted_files := [];
           Main.errors := None; Main.success := true |}).
Proof.
  intros fs' r. subst fs' r.
  set (st0 := {| Main.files := fs; Main.deleted := []; Main.failed := [] |}).
  set (st1 := Main.delete_original re original_path st0).
  set (st2 := Main.delete_processed re processed_path st1).
  assert (Hout : Main.delete_video_files re vid original_path processed_path fs =
                 (Main.files st2,
                  {| Main.video_id := vid;
                     Main.deleted_files := Main.deleted st2;
                     Main.errors := match Main.failed st2 with
                                    | [] => None
                                    | _ => Some (Main.failed st2)
                                    end;
                     Main.success := (List.length (Main.failed st2) =? 0)%nat |}))
    by reflexivity.
  rewrite Hout. cbn [fst snd Main.success].
  intros Hok. apply Nat.eqb_eq in Hok.
  destruct (delete_original_spec re original_path fs st0 (tracks_start fs))
    as (T1 & L1 & _ & _ & _ & G1).
  destruct (delete_processed_spec re processed_path fs st1 T1)
    as (_ & L2 & M2 & _ & _ & G2).
  fold st1 in L1, G1. fold st2 in L2, M2, G2. simpl in L1, G1.
  assert (E1 : List.length (Main.failed st1) = 0%nat) by lia.
  assert (Horig : forall p, original_path = Some p ->
                    PyStr.truthy original_path = true ->
                    Main.path_exists (Main.files st2) p = false).
  { intros p Hp Htr.
    destruct (Main.path_exists (Main.files st2) p) eqn:E; [|reflexivity].
    apply M2 in E. rewrite (G1 E1 p Hp Htr) in E. discriminate. }
  assert (Hproc : forall p, processed_path = Some p ->
                    PyStr.truthy processed_path = true ->
                    Main.path_exists (Main.files st2) p = false).
  { apply G2. lia. }
  unfold Main.delete_video_files.
  set (s0 := {| Main.files := Main.files st2; Main.deleted := []; Main.failed := [] |}).
  assert (S1 : Main.delete_original re2 original_path s0 = s0).
  { unfold Main.delete_original. destruct original_path as [p|]; [|reflexivity].
    pose proof (Horig p eq_refl) as Hx.
    destruct (PyStr.truthy (Some p)); [|reflexivity].
    cbn [andb Main.files s0]. now rewrite (Hx eq_refl). }
  assert (S2 : Main.delete_processed re2 processed_path s0 = s0).
  { unfold Main.delete_processed. destruct processed_path as [p|]; [|reflexivity].
    pose proof (Hproc p eq_refl) as Hx.
    destruct (PyStr.truthy (Some p)); [|reflexivity].
    cbn [andb Main.files s0]. now rewrite (Hx eq_refl). }
  rewrite S1, S2. reflexivity.
Qed.

(** Three files are deleted; the second call finds nothing to do. *)
Lemma delete_twice_witness :
  let fs := ["/s/a.mp4"%string; "/s/a_processed.mp4"%string; "/s/a_processed.json"%string; "/s/b.mp4"%string] in
  let fs' := fst (Main.delete_video_files (fun _ => None) "v1"%string
                    (Some "/s/a.mp4"%string) (Some "/s/a_processed.mp4"%string) fs) in
  fs' = ["/s/b.mp4"%string] /\
  Main.deleted_files
    (snd (Main.delete_video_files (fun _ => Some "denied"%string) "v1"%string
            (Some "/s/a.mp4"%string) (Some "/s/a_processed.mp4"%string) fs')) = [].
Proof.
  intros fs fs'. split; [reflexivity|].
  assert (Hok : Main.success
                  (snd (Main.delete_video_files (fun _ => None) "v1"%string
                          (Some "/s/a.mp4"%string) (Some "/s/a_processed.mp4"%string) fs)) = true)
    by reflexivity.
  pose proof (delete_twice (fun _ => None) (fun _ => Some "denied"%string) "v1"%string
                (Some "/s/a.mp4"%string) (Some "/s/a_processed.mp4"%string) fs Hok) as H.
  fold fs' in H. rewrite H. reflexivity.
Defined.


(* ------------------------------------------------------------------ *)
(** ** Accepting an analysis request *)



(* ------------------------------------------------------------------ *)
(** ** The patched model loader *)

Section TorchLoadFacts.

Variable Value : Type.
Variable PyFalse : Value.
Variable Loaded : Type.
Variable _original_torch_load : list Value -> list (string * Value) -> Loaded.

Lemma kwargs_get_app (key : string) (k1 k2 : list (string * Value)) :
  kwargs_get Value key (k1 ++ k2) =
  match kwargs_get Value key k1 with
  | Some v => Some v
  | None => kwargs_get Value key k2
  end.
Proof.
  unfold kwargs_get. induction k1 as [|[k v] k1 IH]; simpl; [reflexivity|].
  destruct (String.eqb k key); [reflexivity|exact IH].
Qed.

Lemma kwargs_has_get (key : string) (kwargs : list (string * Value)) :
  kwargs_has Value key kwargs = false <-> kwargs_get Value key kwargs = None.
Proof.
  unfold kwargs_has, kwargs_get. induction kwargs as [|[k v] kwargs IH]; simpl.
  - tauto.
  - destruct (String.eqb k key); simpl; [split; discriminate|exact IH].
Qed.

(** X17.  The patched loader calls the original loader with the same
    positional arguments and with keyword arguments in which
    [weights_only] is always set: to the caller's value when the caller
    gave one (the keyword arguments are then passed on unchanged), and to
    [False] otherwise; every other keyword keeps the caller's value. *)
Theorem patched_load_keeps_caller_choice (args : list Value)
    (kwargs : list (string * Value)) :
  exists kwargs',
    _patched_torch_load Value PyFalse Loaded _original_torch_load args kwargs
      = _original_torch_load args kwargs' /\
    kwargs_get Value "weights_only" kwargs' =
      Some (match kwargs_get Value "weights_only" kwargs with
            | Some v => v
            | None => PyFalse
            end) /\
    (forall key, key <> "weights_only"%string ->
                 kwargs_get Value key kwargs' = kwargs_get Value key kwargs) /\
    (kwargs_get Value "weights_only" kwargs <> None -> kwargs' = kwargs).
Proof.
  unfold _patched_torch_load.
  destruct (kwargs_has Value "weights_only" kwargs) eqn:Eh; simpl.
  - exists kwargs. split; [reflexivity|].
    destruct (kwargs_get Value "weights_only" kwargs) as [v|] eqn:Eg.
    + auto.
    + apply kwargs_has_get in Eg. congruence.
  - exists (kwargs ++ [("weights_only"%string, PyFalse)]).
    apply kwargs_has_get in Eh. split; [reflexivity|].
    split; [|split].
    + rewrite kwargs_get_app, Eh. reflexivity.
    + intros key Hk. rewrite kwargs_get_app.
      destruct (kwargs_get Value key kwargs); [reflexivity|].
      unfold kwargs_get. cbn [find fst].
      destruct (String.eqb "weights_only" key) eqn:E; [|reflexivity].
      apply String.eqb_eq in E. congruence.
    + congruence.
Qed.

End TorchLoadFacts.

(* ------------------------------------------------------------------ *)
(** ** Where a rep starts *)

(** X18.  On an analyzer that is outside a rep, new or after any
    sequence of calls, a completed frame with a pose and a bar box starts
    a rep exactly when the bar-to-shoulder distance is below 970 (the
    sentinel 1000 minus the band of 30); the minimum is then that distance
    and the elbow height is the smoothed one of the frame. *)
Theorem rep_starts_below_970 (ws : list World) (fps height : Z) (f : Frame)
    (st st' : Locals) (self' : Analyzer) (lm : Landmarks) (bar : IBox) :
  is_in_rep (calls ws __init__) = false ->
  pose_landmarks f = Some lm ->
  bar_of f = Some bar ->
  frame_body fps height f st (calls ws __init__) = (self', inr st') ->
  let d := Qabs (box_bottom bar - shoulder_of height lm) in
  (is_in_rep self' = true <-> d < 970) /\
  (is_in_rep self' = true ->
   min_bar_shoulder_dist self' = d /\
   min_elbow_y_at_bottom self' = smoothed_of height lm st).
Proof.
  intros Hidle Hp Hbar H d.
  pose proof (frame_body_rep _ _ _ _ _ _ _ _ _ Hp Hbar H) as Hr.
  fold d in Hr. rewrite rep_state_machine_eq in Hr.
  rewrite (calls_idle ws Hidle) in Hr.
  assert (Hs : rep_start_test __init__ d = true <-> d < 970).
  { rewrite rep_start_test_iff. simpl.
    assert (E : 1000 - 30 == 970) by reflexivity.
    split; [intros [_ Hlt]|intros Hlt; split; [reflexivity|]].
    - now rewrite <- E.
    - now rewrite E. }
  destruct (rep_start_test __init__ d) eqn:Es.
  - injection Hr as Hself _. subst self'. simpl.
    split; [split; [intros _; now apply Hs|reflexivity]|auto].
  - assert (Et : rep_track_test __init__ d = false) by reflexivity.
    assert (Ee : rep_end_test __init__ d = false) by reflexivity.
    rewrite Et, Ee in Hr. injection Hr as Hself _. subst self'. simpl.
    split; [split; [discriminate|]|discriminate].
    intros Hlt. apply Hs in Hlt. discriminate Hlt.
Qed.

(** The bar 200 below the shoulders on the first frame of a first call. *)
Lemma rep_starts_below_970_witness :
  is_in_rep (fst (frame_body 30 1000 Sample.bar_high init_locals __init__)) = true.
Proof.
  pose (r := frame_body 30 1000 Sample.bar_high init_locals __init__).
  assert (Hidle : is_in_rep (calls [] __init__) = false) by reflexivity.
  assert (Hp : pose_landmarks Sample.bar_high = Some (Sample.pose 0.5 0.7 0.3))
    by reflexivity.
  assert (Hbar : bar_of Sample.bar_high = Some (100, 0, 500, 500)%Z)
    by (vm_compute; reflexivity).
  assert (Hf : frame_body 30 1000 Sample.bar_high init_locals (calls [] __init__)
               = (fst r, inr (Sample.locals_of r)))
    by (vm_compute; reflexivity).
  destruct (rep_starts_below_970 [] _ _ _ _ _ _ _ _ Hidle Hp Hbar Hf) as [Hiff _].
  apply Hiff. vm_compute. reflexivity.
Defined.
